(** * stunner: the UDP scanner and the SOCKS/TURN TCP handler

    A shallow embedding of [internal/cmd/udpscanner.go] and
    [internal/socksimplementations/socksturntcphandler.go].

    Bytes are integers in [0, 256); [uint8] and [uint16] conversions are
    written out as the reductions Go performs.  Calls that leave the two
    files (the TURN connection, the logger, the random sources) are
    recorded as events of a trace, and what they return is read from an
    explicit description of the outside world. *)

From Stdlib Require Import ZArith List String Ascii Bool Lia.
Import ListNotations.
Local Open Scope string_scope.
Local Open Scope list_scope.
Local Open Scope Z_scope.

Set Implicit Arguments.

(** ** Go values *)

Module Go.

(** [len] of a slice and of a string (a count of bytes). *)
Definition len {A : Type} (l : list A) : Z := Z.of_nat (List.length l).
Definition slen (s : string) : Z := Z.of_nat (String.length s).

(** Integer conversions [uint8(n)] and [uint16(n)]. *)
Definition uint8 (n : Z) : Z := n mod 256.
Definition uint16 (n : Z) : Z := n mod 65536.

(** [[]byte(s)] and [string(b)]. *)
Definition byte_of_ascii (c : ascii) : Z := Z.of_nat (nat_of_ascii c).
Definition bytes (s : string) : list Z := map byte_of_ascii (list_ascii_of_string s).
Definition ascii_of_byte (b : Z) : ascii := ascii_of_nat (Z.to_nat b).
Definition string_of_bytes (b : list Z) : string :=
  string_of_list_ascii (map ascii_of_byte b).

(** [strings.Contains(s, sub)]. *)
Fixpoint Contains (s sub : string) : bool :=
  prefix sub s ||
  match s with
  | EmptyString => false
  | String _ t => Contains t sub
  end.

(** [strings.Split(s, sep)] for a one-character separator: the pieces
    between the separators, one piece when there is none. *)
Fixpoint Split (s : string) (sep : ascii) : list string :=
  match s with
  | EmptyString => [EmptyString]
  | String c t =>
      if Ascii.eqb c sep then EmptyString :: Split t sep
      else match Split t sep with
           | piece :: pieces => String c piece :: pieces
           | [] => [String c EmptyString]
           end
  end.

(** A value handed to a format string. *)
Inductive Arg : Type :=
| AStr (s : string)
| AInt (n : Z)
| ABytes (b : list Z).

(** Go errors: the sentinel [helper.ErrTimeout], errors built by
    [fmt.Errorf] from a format string and its arguments, and errors
    built by [fmt.Errorf] with [%w], which wrap another error. *)
Inductive error : Type :=
| ErrTimeout
| Errorf (format : string) (args : list Arg)
| ErrorfW (format : string) (args : list Arg) (wrapped : error).

(** [errors.Is(err, helper.ErrTimeout)]: [err] is the sentinel or
    wraps it, at any depth. *)
Fixpoint errors_Is_ErrTimeout (err : error) : bool :=
  match err with
  | ErrTimeout => true
  | Errorf _ _ => false
  | ErrorfW _ _ wrapped => errors_Is_ErrTimeout wrapped
  end.

(** A Go pair [(value, err)] with exactly one side set. *)
Inductive result (A : Type) : Type :=
| Ok (a : A)
| Err (e : error).
Arguments Ok {A} a.
Arguments Err {A} e.

End Go.
Import Go.

(** ** [helper] *)

Module Helper.

(** Modelled from the spec: [helper.PutUint16] is absent from the
    sources; the spec's probe bytes ([QDCOUNT=1] as [00 01], the
    ChannelData length "big-endian") make it the big-endian encoding
    of a 16-bit value. *)
Definition PutUint16 (v : Z) : list Z :=
  [Z.land (Z.shiftr v 8) 0xff; Z.land v 0xff].

(** Modelled from the spec: [helper.PutUint32] is absent from the
    sources; the spec's SNMP bytes (request-id [0xDEADBEEF] as
    [DE AD BE EF]) make it the big-endian encoding of a 32-bit value. *)
Definition PutUint32 (v : Z) : list Z :=
  [Z.land (Z.shiftr v 24) 0xff; Z.land (Z.shiftr v 16) 0xff;
   Z.land (Z.shiftr v 8) 0xff; Z.land v 0xff].

End Helper.
Import Helper.

(** ** [net/netip] *)

Module Netip.

Inductive Addr : Type :=
| IPv4 (b : list Z)
| IPv6 (b : list Z).

(** The bytes of an address; [ip.String()] is kept as these bytes. *)
Definition AsSlice (ip : Addr) : list Z :=
  match ip with
  | IPv4 b => b
  | IPv6 b => b
  end.

(** [netip.AddrFromSlice]: a 4-byte slice is an IPv4 address, a
    16-byte slice an IPv6 address, anything else is refused. *)
Definition AddrFromSlice (slice : list Z) : option Addr :=
  match List.length slice with
  | 4%nat => Some (IPv4 slice)
  | 16%nat => Some (IPv6 slice)
  | _ => None
  end.

End Netip.
Import Netip.

(** ** [internal]: STUN messages as the two files use them *)

Module Internal.

Inductive MessageClass : Type :=
| MsgTypeClassRequest
| MsgTypeClassIndication
| MsgTypeClassSuccess
| MsgTypeClassError.

Definition MessageClass_eqb (a b : MessageClass) : bool :=
  match a, b with
  | MsgTypeClassRequest, MsgTypeClassRequest
  | MsgTypeClassIndication, MsgTypeClassIndication
  | MsgTypeClassSuccess, MsgTypeClassSuccess
  | MsgTypeClassError, MsgTypeClassError => true
  | _, _ => false
  end.

Inductive AttributeType : Type :=
| AttrRealm
| AttrNonce
| AttrOther (code : Z).

Record Attribute : Type := { Type_ : AttributeType; Value : list Z }.

(** A received message: the class of its header and its attributes. *)
Record Stun : Type := {
  Class : MessageClass;
  Attributes : list Attribute
}.

(** Requests are kept as the constructor call that builds them, with
    its arguments in the order of the Go signature. *)
Inductive Request : Type :=
| RefreshRequest (username password nonce realm : string)
| ChannelBindRequest (username password nonce realm : string)
    (ip : Addr) (port : Z) (channelNumber : list Z).

End Internal.
Import Internal.

(** ** What a run does: the trace of calls and log lines *)

Module Trace.

Inductive Level : Type := DebugLevel | InfoLevel | ErrorLevel.

(** A network connection, as a handle. *)
Inductive Conn : Type := ConnID (n : nat).

Inductive Event : Type :=
(** [Log.Debugf], [Log.Infof], [Log.Errorf] and their unformatted
    forms (empty format); an error argument is kept as such. *)
| Log (level : Level) (format : string) (args : list Arg) (err : option error)
(** [internal.SetupTurnConnection] and [internal.SetupTurnTCPConnection]. *)
| SetupTurnConnection (protocol turnServer : string) (ip : Addr) (port : Z)
| SetupTurnTCPConnection (server : string) (target : Addr) (port : Z)
(** [request.SendAndReceive] *)
| SendAndReceive (req : Request)
(** [helper.ConnectionWrite], [helper.ConnectionRead], [remote.Close] *)
| ConnectionWrite (buf : list Z)
| ConnectionRead
| Close.

Definition isSetup (e : Event) : bool :=
  match e with
  | SetupTurnConnection _ _ _ _ | SetupTurnTCPConnection _ _ _ => true
  | _ => false
  end.

Definition isErrorLog (e : Event) : bool :=
  match e with
  | Log ErrorLevel _ _ _ => true
  | _ => false
  end.

(** The requests of a trace, in the order they were sent. *)
Fixpoint sent (t : list Event) : list Request :=
  match t with
  | [] => []
  | SendAndReceive req :: t' => req :: sent t'
  | _ :: t' => sent t'
  end.

(** The buffers of a trace, in the order they were written. *)
Fixpoint written (t : list Event) : list (list Z) :=
  match t with
  | [] => []
  | ConnectionWrite buf :: t' => buf :: written t'
  | _ :: t' => written t'
  end.

End Trace.
Import Trace.

(** ** Function bodies with early [return]

    A computation of [M R A] belongs to the body of a Go function whose
    return type is [R]: it appends events to the trace and either goes
    on with a value of [A] or has executed a [return]. *)

Module Flow.

Definition M (R A : Type) : Type := (A + R) * list Event.

Definition ret {R A} (a : A) : M R A := (inl a, []).

Definition bind {R A B} (m : M R A) (k : A -> M R B) : M R B :=
  match m with
  | (inl a, t) => let (r, t') := k a in (r, t ++ t')
  | (inr r, t) => (inr r, t)
  end.

(** One call or log line. *)
Definition emit {R} (e : Event) : M R unit := (inl tt, [e]).

(** The statement [return r]. *)
Definition return_ {R A} (r : R) : M R A := (inr r, []).

(** [v, err := f(); if err != nil { onErr }], where [onErr] returns. *)
Definition try {R A} (r : result A) (onErr : error -> M R A) : M R A :=
  match r with
  | Ok a => ret a
  | Err e => onErr e
  end.

(** Same for a call that yields only an error. *)
Definition try_ {R} (r : option error) (onErr : error -> M R unit) : M R unit :=
  match r with
  | None => ret tt
  | Some e => onErr e
  end.

(** [defer e]: [e] happens when the rest of the body is left. *)
Definition defer {R A} (e : Event) (body : M R A) : M R A :=
  let (r, t) := body in (r, t ++ [e]).

(** The whole body of a function; falling off the end returns too. *)
Definition run {R} (body : M R R) : R * list Event :=
  match body with
  | (inl r, t) => (r, t)
  | (inr r, t) => (r, t)
  end.

Declare Scope flow_scope.
Delimit Scope flow_scope with flow.
Notation "x <- m ;; k" := (bind m (fun x => k))
  (at level 61, m at next level, right associativity) : flow_scope.
Notation "' pat <- m ;; k" := (bind m (fun x => match x with pat => k end))
  (at level 61, pat pattern, m at next level, right associativity) : flow_scope.
Notation "m ;; k" := (bind m (fun _ => k))
  (at level 61, right associativity) : flow_scope.

End Flow.
Import Flow.

(** ** [internal/cmd/udpscanner.go] *)

Module Cmd.

(** *** Probe payloads (the byte assembly inside [snmpScan] and [dnsScan]) *)

(** [inner], lines 116-133. *)
Definition snmp_inner (community : string) (requestID : Z) : list Z :=
  [0x02] ++ [0x01] ++ [1] ++ [0x04]
  ++ [uint8 (slen community)]
  ++ bytes community
  ++ [0xa1; 0x19; 0x02; 0x04]
  ++ PutUint32 requestID
  ++ [0x02; 0x01; 0x00; 0x02; 0x01; 0x00; 0x30; 0x0b; 0x30; 0x09;
      0x06; 0x05; 0x2b; 0x06; 0x01; 0x02; 0x01; 0x05; 0x00].

(** [snmp], lines 135-139. *)
Definition snmp (community : string) (requestID : Z) : list Z :=
  [0x30] ++ [uint8 (len (snmp_inner community requestID))]
  ++ snmp_inner community requestID.

(** [buf] of [snmpScan], lines 141-146. *)
Definition snmp_buf (channelNumber : list Z) (community : string) (requestID : Z)
  : list Z :=
  let snmpLen := len (snmp community requestID) in
  channelNumber ++ PutUint16 (uint16 snmpLen) ++ snmp community requestID.

(** The loop over [domainParts], lines 217-220. *)
Fixpoint dns_labels (domainParts : list string) : list Z :=
  match domainParts with
  | [] => []
  | x :: rest => [uint8 (slen x)] ++ bytes x ++ dns_labels rest
  end.

(** [domainBuf], lines 215-226. *)
Definition dns_domainBuf (dnsName : string) : list Z :=
  dns_labels (Split dnsName ".")
  ++ [0x00] ++ PutUint16 1 ++ PutUint16 1.

(** [dns], lines 199-228; [rnd] is the value of [rand.Uint32()]. *)
Definition dns (dnsName : string) (rnd : Z) : list Z :=
  PutUint16 (uint16 rnd)
  ++ [0x01; 0x00]
  ++ PutUint16 1 ++ PutUint16 0 ++ PutUint16 0 ++ PutUint16 0
  ++ dns_domainBuf dnsName.

(** [buf] of [dnsScan], lines 230-235. *)
Definition dns_buf (channelNumber : list Z) (dnsName : string) (rnd : Z) : list Z :=
  let dnsLen := len (dns dnsName rnd) in
  channelNumber ++ PutUint16 (uint16 dnsLen) ++ dns dnsName rnd.

(** *** Options and validation *)

Inductive Logger : Type := TheLogger.

Record UDPScannerOpts : Type := {
  TurnServer : string;
  Protocol : string;
  Username : string;
  Password : string;
  UseTLS : bool;
  TlsVerify : bool;
  Timeout : Z;
  Log_ : option Logger;
  CommunityString : string;
  DomainName : string;
  IPs : list string
}.

Definition Validate (opts : UDPScannerOpts) : option error :=
  if String.eqb (TurnServer opts) "" then
    Some (Errorf "need a valid turnserver" [])
  else if negb (Contains (TurnServer opts) ":") then
    Some (Errorf "turnserver needs a port" [])
  else if negb (String.eqb (Protocol opts) "tcp")
          && negb (String.eqb (Protocol opts) "udp") then
    Some (Errorf "protocol needs to be either tcp or udp" [])
  else if String.eqb (Username opts) "" then
    Some (Errorf "please supply a username" [])
  else if String.eqb (Password opts) "" then
    Some (Errorf "please supply a password" [])
  else if match Log_ opts with None => true | Some _ => false end then
    Some (Errorf "please supply a valid logger" [])
  else if String.eqb (CommunityString opts) "" then
    Some (Errorf "please supply a valid community string" [])
  else if String.eqb (DomainName opts) "" then
    Some (Errorf "please supply a valid domain name" [])
  else None.

(** *** The outside world of the scanner *)

(** What the calls of one probe give back. *)
Record ProbeIO : Type := {
  (** [internal.SetupTurnConnection]: [(realm, nonce)] or an error *)
  setup : result (string * string);
  (** [helper.RandomChannelNumber()] *)
  randomChannelNumber : list Z;
  (** the error of [internal.ChannelBindRequest], if any *)
  channelBindRequestErr : option error;
  (** [channelBindRequest.SendAndReceive] *)
  channelBindResponse : result Stun;
  (** [rand.Uint32()] *)
  randUint32 : Z;
  (** [helper.ConnectionWrite] *)
  connectionWrite : option error;
  (** [helper.ConnectionRead] *)
  connectionRead : result (list Z)
}.

(** One element of the channel of [helper.IPIterator]. *)
Record IPItem : Type := { IP : Addr; Error : option error }.

(** The collaborators of the scanner.  [IPIterator] gives the elements
    its channel delivers until it is closed; [probe i port] is what
    the network does for the probe of the [i]-th element on [port]. *)
Record World : Type := {
  PrivateRanges : list string;
  IPIterator : list string -> list IPItem;
  ExtractChannelData : list Z -> result (list Z * list Z);
  GetErrorString : Stun -> string;
  probe : nat -> Z -> ProbeIO
}.

(** *** Probes *)

Local Open Scope flow_scope.

Definition snmpScan (w : World) (opts : UDPScannerOpts) (ip : Addr) (port : Z)
    (community : string) (io : ProbeIO) : option error * list Event :=
  run (
    emit (SetupTurnConnection (Protocol opts) (TurnServer opts) ip port) ;;
    '(realm, nonce) <- try (setup io) (fun err =>
        (* ignore timeouts *)
        if errors_Is_ErrTimeout err then return_ None else return_ (Some err)) ;;
    defer Close (
      let channelNumber := randomChannelNumber io in
      let channelBindRequest :=
        ChannelBindRequest (Username opts) (Password opts) nonce realm ip port
          channelNumber in
      try_ (channelBindRequestErr io) (fun err =>
        return_ (Some (ErrorfW "error on generating ChannelBindRequest: %w" [] err))) ;;
      emit (SendAndReceive channelBindRequest) ;;
      channelBindResponse <- try (channelBindResponse io) (fun err =>
        return_ (Some (ErrorfW "error on sending ChannelBindRequest: %w" [] err))) ;;
      (if MessageClass_eqb (Class channelBindResponse) MsgTypeClassError
       then return_ (Some (Errorf "error on ChannelBind: %s"
                             [AStr (GetErrorString w channelBindResponse)]))
       else ret tt) ;;
      let buf := snmp_buf channelNumber community (randUint32 io) in
      emit (ConnectionWrite buf) ;;
      try_ (connectionWrite io) (fun err =>
        return_ (Some (ErrorfW "error on sending SNMP request: %w" [] err))) ;;
      emit ConnectionRead ;;
      resp <- try (connectionRead io) (fun err =>
        (* ignore timeouts *)
        if errors_Is_ErrTimeout err then return_ None
        else return_ (Some (ErrorfW "error on reading SNMP response: %w" [] err))) ;;
      '(channel, data) <- try (ExtractChannelData w resp) (fun err =>
        return_ (Some err)) ;;
      emit (Log InfoLevel "received %d bytes on channel %02x for ip %s"
              [AInt (len data); ABytes channel; ABytes (AsSlice ip)] None) ;;
      emit (Log InfoLevel "UDP Response: %s" [AStr (string_of_bytes resp)] None) ;;
      return_ None)).

Definition dnsScan (w : World) (opts : UDPScannerOpts) (ip : Addr) (port : Z)
    (dnsName : string) (io : ProbeIO) : option error * list Event :=
  run (
    emit (SetupTurnConnection (Protocol opts) (TurnServer opts) ip port) ;;
    '(realm, nonce) <- try (setup io) (fun err =>
        (* ignore timeouts *)
        if errors_Is_ErrTimeout err then return_ None else return_ (Some err)) ;;
    defer Close (
      let channelNumber := randomChannelNumber io in
      let channelBindRequest :=
        ChannelBindRequest (Username opts) (Password opts) nonce realm ip port
          channelNumber in
      try_ (channelBindRequestErr io) (fun err =>
        return_ (Some (ErrorfW "error on generating ChannelBindRequest: %w" [] err))) ;;
      emit (SendAndReceive channelBindRequest) ;;
      channelBindResponse <- try (channelBindResponse io) (fun err =>
        return_ (Some (ErrorfW "error on sending ChannelBindRequest: %w" [] err))) ;;
      (if MessageClass_eqb (Class channelBindResponse) MsgTypeClassError
       then return_ (Some (Errorf "error on ChannelBind: %s"
                             [AStr (GetErrorString w channelBindResponse)]))
       else ret tt) ;;
      let buf := dns_buf channelNumber dnsName (randUint32 io) in
      emit (ConnectionWrite buf) ;;
      try_ (connectionWrite io) (fun err =>
        return_ (Some (ErrorfW "error on sending DNS request: %w" [] err))) ;;
      emit ConnectionRead ;;
      resp <- try (connectionRead io) (fun err =>
        (* ignore timeouts *)
        if errors_Is_ErrTimeout err then return_ None
        else return_ (Some (ErrorfW "error on reading DNS response: %w" [] err))) ;;
      '(channel, data) <- try (ExtractChannelData w resp) (fun err =>
        return_ (Some err)) ;;
      emit (Log InfoLevel "received %d bytes on channel %02x for ip %s"
              [AInt (len data); ABytes channel; ABytes (AsSlice ip)] None) ;;
      emit (Log InfoLevel "UDP Response: %s" [AStr (string_of_bytes resp)] None) ;;
      return_ None)).

(** *** The scan *)

(** What [UDPScanner] logs after a probe, lines 78-83. *)
Definition logProbeError (format : string) (ip : Addr) (err : option error)
  : list Event :=
  match err with
  | Some e => [Log ErrorLevel format [ABytes (AsSlice ip)] (Some e)]
  | None => []
  end.

(** One round of [for ip := range ipChan], for the [i]-th element. *)
Definition scanIP (w : World) (opts : UDPScannerOpts) (i : nat) (ip : IPItem)
  : list Event :=
  match Error ip with
  | Some e => [Log ErrorLevel "" [] (Some e)]
  | None =>
      let s := snmpScan w opts (IP ip) 161 (CommunityString opts) (probe w i 161) in
      let d := dnsScan w opts (IP ip) 53 (DomainName opts) (probe w i 53) in
      [Log DebugLevel "Scanning %s" [ABytes (AsSlice (IP ip))] None]
      ++ snd s
      ++ logProbeError "error on running SNMP Scan for ip %s: %v" (IP ip) (fst s)
      ++ snd d
      ++ logProbeError "error on running DNS Scan for ip %s: %v" (IP ip) (fst d)
  end.

(** The loop, from the [i]-th element on. *)
Fixpoint scanFrom (w : World) (opts : UDPScannerOpts) (i : nat) (ipChan : list IPItem)
  : list Event :=
  match ipChan with
  | [] => []
  | ip :: rest => scanIP w opts i ip ++ scanFrom w opts (S i) rest
  end.

Definition UDPScanner (w : World) (opts : UDPScannerOpts) : option error * list Event :=
  match Validate opts with
  | Some err => (Some err, [])
  | None =>
      let ipInput :=
        if len (IPs opts) =? 0 then PrivateRanges w else IPs opts in
      let ipChan := IPIterator w ipInput in
      (None, scanFrom w opts 0 ipChan)
  end.

(** *** How a probe can end *)

(** Every step before the read succeeds. *)
Definition reachesRead (io : ProbeIO) : bool :=
  match setup io, channelBindRequestErr io, channelBindResponse io,
        connectionWrite io with
  | Ok _, None, Ok response, None =>
      negb (MessageClass_eqb (Class response) MsgTypeClassError)
  | _, _, _, _ => false
  end.

(** The probe runs into a timeout while the TURN connection is set up
    or while the response is read. *)
Definition timesOut (io : ProbeIO) : bool :=
  match setup io with
  | Err err => errors_Is_ErrTimeout err
  | Ok _ =>
      reachesRead io &&
      match connectionRead io with
      | Err err => errors_Is_ErrTimeout err
      | Ok _ => false
      end
  end.

(** The probe reads a response and finds a ChannelData frame in it. *)
Definition answeredBy (w : World) (io : ProbeIO) : bool :=
  reachesRead io &&
  match connectionRead io with
  | Ok resp =>
      match ExtractChannelData w resp with
      | Ok _ => true
      | Err _ => false
      end
  | Err _ => false
  end.

(** The calls of [internal.SetupTurnConnection] a scan makes when no
    probe stops it: two for every address the iterator delivers. *)
Definition setupsOf (opts : UDPScannerOpts) (ip : IPItem) : list Event :=
  match Error ip with
  | Some _ => []
  | None =>
      [SetupTurnConnection (Protocol opts) (TurnServer opts) (IP ip) 161;
       SetupTurnConnection (Protocol opts) (TurnServer opts) (IP ip) 53]
  end.

End Cmd.
(** ** [internal/socksimplementations/socksturntcphandler.go] *)

Module Socksimplementations.

(** *** [gosocks] types the handler receives and returns *)

Inductive RequestAddressType : Type :=
| RequestAddressTypeIPv4
| RequestAddressTypeDomainname
| RequestAddressTypeIPv6
| RequestAddressTypeUnknown (code : Z).

Inductive RequestReplyReason : Type :=
| RequestReplyHostUnreachable
| RequestReplyAddressTypeNotSupported.

Record SocksRequest : Type := {
  AddressType : RequestAddressType;
  DestinationAddress : list Z;
  DestinationPort : Z
}.

Record SocksError : Type := { Reason : RequestReplyReason; Err_ : error }.

(** The pair [(io.ReadWriteCloser, *socks.Error)] of [PreHandler]. *)
Inductive PreHandlerResult : Type :=
| DataConnection (dataConnection : Conn)
| Refused (e : SocksError).

(** *** The handler *)

Record SocksTurnTCPHandler : Type := {
  ControlConnection : option Conn;
  TURNUsername : string;
  TURNPassword : string;
  Server : string;
  Timeout : Z;
  UseTLS : bool;
  TlsVerify : bool;
  DropNonPrivateRequests : bool
}.

Definition set_ControlConnection (s : SocksTurnTCPHandler) (c : Conn)
  : SocksTurnTCPHandler :=
  {| ControlConnection := Some c;
     TURNUsername := TURNUsername s;
     TURNPassword := TURNPassword s;
     Server := Server s;
     Timeout := Timeout s;
     UseTLS := UseTLS s;
     TlsVerify := TlsVerify s;
     DropNonPrivateRequests := DropNonPrivateRequests s |}.

(** The collaborators of the handler.  [sendAndReceive n] is what the
    [n]-th exchange on the control connection gives back. *)
Record World : Type := {
  ResolveName : string -> result (list Addr);
  IsPrivateIP : Addr -> bool;
  setupTurnTCPConnection : Addr -> Z -> result (Conn * Conn);
  GetAttribute : Stun -> AttributeType -> Attribute;
  GetErrorString : Stun -> string;
  sendAndReceive : nat -> result Stun
}.

Local Open Scope flow_scope.

Definition R_PreHandler : Type := PreHandlerResult * SocksTurnTCPHandler.

Definition refuse {A} (s : SocksTurnTCPHandler) (reason : RequestReplyReason)
    (err : error) : M R_PreHandler A :=
  return_ (Refused {| Reason := reason; Err_ := err |}, s).

(** The [switch] on the address type, lines 34-54: the target, unless
    the function has returned. *)
Definition PreHandler_target (w : World) (s : SocksTurnTCPHandler)
    (request : SocksRequest) : M R_PreHandler Addr :=
  match AddressType request with
  | RequestAddressTypeIPv4 | RequestAddressTypeIPv6 =>
      match AddrFromSlice (DestinationAddress request) with
      | None =>
          refuse s RequestReplyAddressTypeNotSupported
            (Errorf "%02x is no ip address" [ABytes (DestinationAddress request)])
      | Some tmp => ret tmp
      end
  | RequestAddressTypeDomainname =>
      names <- try (ResolveName w (string_of_bytes (DestinationAddress request)))
                 (fun err => refuse s RequestReplyHostUnreachable err) ;;
      match names with
      | [] =>
          refuse s RequestReplyHostUnreachable
            (Errorf "%s could not be resolved"
               [AStr (string_of_bytes (DestinationAddress request))])
      | first :: _ => ret first
      end
  | RequestAddressTypeUnknown code =>
      refuse s RequestReplyAddressTypeNotSupported
        (Errorf "AddressType %#x not implemented" [AInt code])
  end.

Definition PreHandler (w : World) (s : SocksTurnTCPHandler) (request : SocksRequest)
  : R_PreHandler * list Event :=
  run (
    target <- PreHandler_target w s request ;;
    (if DropNonPrivateRequests s && negb (IsPrivateIP w target) then
       emit (Log DebugLevel "dropping non private connection to %s:%d"
               [ABytes (AsSlice target); AInt (DestinationPort request)] None) ;;
       refuse s RequestReplyHostUnreachable
         (Errorf "dropping non private connection to %s:%d"
            [ABytes (AsSlice target); AInt (DestinationPort request)])
     else ret tt) ;;
    emit (SetupTurnTCPConnection (Server s) target (DestinationPort request)) ;;
    '(controlConnection, dataConnection) <-
       try (setupTurnTCPConnection w target (DestinationPort request))
         (fun err => refuse s RequestReplyHostUnreachable err) ;;
    (* we need to keep this connection open *)
    return_ (DataConnection dataConnection, set_ControlConnection s controlConnection)).

(** *** Refresh *)

(** The two cases of the [select]: which of them becomes ready, in the
    order in which that happens during the session. *)
Inductive SelectCase : Type :=
| CtxDone
| TickC.

Inductive Status : Type :=
| Returned
| Blocked.

(** The outcome of one call: whether it came back, the cases it has
    not consumed, and what it did. *)
Record RefreshRun : Type := {
  status : Status;
  pending : list SelectCase;
  trace : list Event
}.

Definition Refresh (w : World) (s : SocksTurnTCPHandler) (ready : list SelectCase)
  : RefreshRun :=
  let nonce := "" in
  let realm := "" in
  (* tick := time.NewTicker(2 * time.Minute) *)
  match ready with
  | [] => {| status := Blocked; pending := []; trace := [] |}
  | CtxDone :: rest => {| status := Returned; pending := rest; trace := [] |}
  | TickC :: rest =>
      {| status := Returned;
         pending := rest;
         trace := snd (run (
           emit (Log DebugLevel "[socks] refreshing connection" [] None) ;;
           let refresh := RefreshRequest (TURNUsername s) (TURNPassword s) nonce realm in
           emit (SendAndReceive refresh) ;;
           response <- try (sendAndReceive w 0) (fun err =>
             emit (Log ErrorLevel "" [] (Some err)) ;; return_ tt) ;;
           (* should happen on a stale nonce *)
           if MessageClass_eqb (Class response) MsgTypeClassError then
             let realm := string_of_bytes (Value (GetAttribute w response AttrRealm)) in
             let nonce := string_of_bytes (Value (GetAttribute w response AttrNonce)) in
             let refresh := RefreshRequest (TURNUsername s) (TURNPassword s) nonce realm in
             emit (SendAndReceive refresh) ;;
             response <- try (sendAndReceive w 1) (fun err =>
               emit (Log ErrorLevel "" [] (Some err)) ;; return_ tt) ;;
             if MessageClass_eqb (Class response) MsgTypeClassError then
               emit (Log ErrorLevel "" [AStr (GetErrorString w response)] None) ;;
               return_ tt
             else ret tt
           else ret tt)) |}
  end.

(** *** Cleanup *)

(** [Cleanup]; [close c] is what [c.Close()] returns.  The second
    component lists the connections that were closed. *)
Definition Cleanup (close : Conn -> option error) (s : SocksTurnTCPHandler)
  : option error * list Conn :=
  match ControlConnection s with
  | Some c => (close c, [c])
  | None => (None, [])
  end.

End Socksimplementations.

(** ** Concrete sessions, used to run the model *)

Module Samples.

Definition manyA (n : nat) : string := string_of_list_ascii (repeat "a"%char n).

Definition tenOne : Addr := IPv4 [10; 0; 0; 1].
Definition tenTwo : Addr := IPv4 [10; 0; 0; 2].
Definition exampleCom : Addr := IPv4 [93; 184; 216; 34].

Definition success : Stun := {| Class := MsgTypeClassSuccess; Attributes := [] |}.

(** An error response that carries REALM ["r"] and NONCE ["n2"]. *)
Definition staleNonce : Stun :=
  {| Class := MsgTypeClassError;
     Attributes := [ {| Type_ := AttrRealm; Value := bytes "r" |};
                     {| Type_ := AttrNonce; Value := bytes "n2" |} ] |}.

Definition AttributeType_eqb (a b : AttributeType) : bool :=
  match a, b with
  | AttrRealm, AttrRealm | AttrNonce, AttrNonce => true
  | AttrOther x, AttrOther y => x =? y
  | _, _ => false
  end.

(** The first attribute of the given type, an empty one without it. *)
Definition firstAttribute (m : Stun) (t : AttributeType) : Attribute :=
  match find (fun a => AttributeType_eqb (Type_ a) t) (Attributes m) with
  | Some a => a
  | None => {| Type_ := AttrOther 0; Value := [] |}
  end.

Definition errorString (m : Stun) : string :=
  match Class m with
  | MsgTypeClassError => "438 Stale Nonce"
  | _ => ""
  end.

(** Splits a frame into channel number and payload. *)
Definition splitFrame (frame : list Z) : result (list Z * list Z) :=
  match frame with
  | c1 :: c2 :: _ :: _ :: data => Ok ([c1; c2], data)
  | _ => Err (Errorf "invalid channel data" [])
  end.

Module Scanner.
Import Cmd.

Definition opts (community dnsName : string) : UDPScannerOpts :=
  {| TurnServer := "turn.example.org:3478";
     Protocol := "tcp";
     Username := "user";
     Password := "pw";
     UseTLS := false;
     TlsVerify := false;
     Timeout := 1000;
     Log_ := Some TheLogger;
     CommunityString := community;
     DomainName := dnsName;
     IPs := ["10.0.0.1"; "bogus"; "10.0.0.2"] |}.

(** A probe in which every step succeeds and the peer answers. *)
Definition answered : ProbeIO :=
  {| setup := Ok ("r", "n1");
     randomChannelNumber := [0x40; 0x00];
     channelBindRequestErr := None;
     channelBindResponse := Ok success;
     randUint32 := 0xDEADBEEF;
     connectionWrite := None;
     connectionRead := Ok [0x40; 0x00; 0x00; 0x01; 0x2a] |}.

(** A probe whose peer stays silent. *)
Definition silent : ProbeIO :=
  {| setup := Ok ("r", "n1");
     randomChannelNumber := [0x40; 0x00];
     channelBindRequestErr := None;
     channelBindResponse := Ok success;
     randUint32 := 0xDEADBEEF;
     connectionWrite := None;
     connectionRead :=
       Err (ErrorfW "error on reading: %w" [] ErrTimeout) |}.

(** A probe whose TURN connection cannot be set up in time. *)
Definition unreachable : ProbeIO :=
  {| setup := Err ErrTimeout;
     randomChannelNumber := [0x40; 0x00];
     channelBindRequestErr := None;
     channelBindResponse := Ok success;
     randUint32 := 0xDEADBEEF;
     connectionWrite := None;
     connectionRead := Ok [] |}.

(** A probe refused by the TURN server. *)
Definition refused : ProbeIO :=
  {| setup := Err (Errorf "connection refused" []);
     randomChannelNumber := [0x40; 0x00];
     channelBindRequestErr := None;
     channelBindResponse := Ok success;
     randUint32 := 0xDEADBEEF;
     connectionWrite := None;
     connectionRead := Ok [] |}.

(** The options of a scan for which no TURN server was given. *)
Definition noServer : UDPScannerOpts :=
  {| TurnServer := "";
     Protocol := "tcp";
     Username := "user";
     Password := "pw";
     UseTLS := false;
     TlsVerify := false;
     Timeout := 1000;
     Log_ := Some TheLogger;
     CommunityString := "public";
     DomainName := "a.b";
     IPs := ["10.0.0.1"; "bogus"; "10.0.0.2"] |}.

(** A probe whose ChannelBind exchange times out. *)
Definition bindTimesOut : ProbeIO :=
  {| setup := Ok ("r", "n1");
     randomChannelNumber := [0x40; 0x00];
     channelBindRequestErr := None;
     channelBindResponse := Err ErrTimeout;
     randUint32 := 0xDEADBEEF;
     connectionWrite := None;
     connectionRead := Ok [] |}.

Definition items : list IPItem :=
  [ {| IP := tenOne; Error := None |};
    {| IP := tenOne; Error := Some (Errorf "invalid ip" [AStr "bogus"]) |};
    {| IP := tenTwo; Error := None |} ].

Definition world (io : nat -> Z -> ProbeIO) : World :=
  {| PrivateRanges := ["10.0.0.0/8"; "172.16.0.0/12"; "192.168.0.0/16"];
     IPIterator := fun _ => items;
     ExtractChannelData := splitFrame;
     GetErrorString := errorString;
     probe := io |}.

(** Every probe is refused, except the DNS probe of the last
    address, which is answered. *)
Definition mostlyRefused (i : nat) (port : Z) : ProbeIO :=
  if (Nat.eqb i 2 && (port =? 53))%bool then answered else refused.

End Scanner.

Module Socks.
Import Socksimplementations.

Definition handler (dropNonPrivate : bool) : SocksTurnTCPHandler :=
  {| ControlConnection := Some (ConnID 0);
     TURNUsername := "user";
     TURNPassword := "pw";
     Server := "turn.example.org:3478";
     Timeout := 1000;
     UseTLS := false;
     TlsVerify := false;
     DropNonPrivateRequests := dropNonPrivate |}.

Definition isTenSlashEight (a : Addr) : bool :=
  match a with
  | IPv4 (10 :: _) => true
  | _ => false
  end.

Definition world (replies : nat -> result Stun) : World :=
  {| ResolveName := fun name =>
       if String.eqb name "www.example.com" then Ok [exampleCom]
       else Err (Errorf "no such host" [AStr name]);
     IsPrivateIP := isTenSlashEight;
     setupTurnTCPConnection := fun _ _ => Ok (ConnID 1, ConnID 2);
     GetAttribute := firstAttribute;
     GetErrorString := errorString;
     sendAndReceive := replies |}.

(** [CONNECT www.example.com:80] *)
Definition connectExample : SocksRequest :=
  {| AddressType := RequestAddressTypeDomainname;
     DestinationAddress := bytes "www.example.com";
     DestinationPort := 80 |}.

End Socks.

End Samples.

(** ** Readers of what the scanner writes

    The receiving side of the probes, used to state that the bytes the
    scanner assembles can be read back. *)

Module Readers.

(** A 16-bit big-endian field at the head of [b]. *)
Definition Uint16 (b : list Z) : option Z :=
  match b with
  | hi :: lo :: _ => Some (hi * 256 + lo)
  | _ => None
  end.

(** A ChannelData frame whose channel number has two bytes: the channel
    number and the payload its length field announces. *)
Definition readFrame (frame : list Z) : option (list Z * list Z) :=
  match frame with
  | c1 :: c2 :: rest =>
      match Uint16 rest with
      | Some n =>
          if Z.of_nat (List.length (skipn 2 rest)) =? n
          then Some ([c1; c2], skipn 2 rest)
          else None
      | None => None
      end
  | _ => None
  end.

(** The community string of an SNMP message: sequence tag, length,
    the three bytes of the version, the octet-string tag, the length of
    the community string and that many bytes. *)
Definition readCommunity (message : list Z) : option (list Z) :=
  match message with
  | 0x30 :: _ :: 0x02 :: 0x01 :: _ :: 0x04 :: n :: rest =>
      if Z.of_nat (List.length rest) <? n then None
      else Some (firstn (Z.to_nat n) rest)
  | _ => None
  end.

(** The labels of a DNS name, up to its null byte, and what follows. *)
Fixpoint readName (fuel : nat) (b : list Z) : option (list (list Z) * list Z) :=
  match fuel with
  | O => None
  | S fuel' =>
      match b with
      | [] => None
      | n :: rest =>
          if n =? 0 then Some ([], rest)
          else if Z.of_nat (List.length rest) <? n then None
          else match readName fuel' (skipn (Z.to_nat n) rest) with
               | Some (labels, after) => Some (firstn (Z.to_nat n) rest :: labels, after)
               | None => None
               end
      end
  end.

(** A byte. *)
Definition isByte (b : Z) : bool := (0 <=? b) && (b <? 256).

(** No call on a connection and no [Close] without a connection set up
    since the last [Close]; [open] tells whether one has been. *)
Fixpoint usesOpenConnection (open : bool) (t : list Event) : bool :=
  match t with
  | [] => true
  | e :: t' =>
      match e with
      | SetupTurnConnection _ _ _ _ | SetupTurnTCPConnection _ _ _ =>
          usesOpenConnection true t'
      | Close => open && usesOpenConnection false t'
      | SendAndReceive _ | ConnectionWrite _ | ConnectionRead =>
          open && usesOpenConnection open t'
      | Log _ _ _ _ => usesOpenConnection open t'
      end
  end.

Definition isClose (e : Event) : bool :=
  match e with
  | Close => true
  | _ => false
  end.

Definition isInfoLog (e : Event) : bool :=
  match e with
  | Log InfoLevel _ _ _ => true
  | _ => false
  end.

(** The calls of a trace, without its log lines and its [Close]. *)
Definition calls (t : list Event) : list Event :=
  filter (fun e => match e with
                   | Log _ _ _ _ | Close => false
                   | _ => true
                   end) t.

(** [p] is an initial segment of [l]. *)
Fixpoint isPrefix (p l : list Event) : Prop :=
  match p, l with
  | [], _ => True
  | x :: p', y :: l' => x = y /\ isPrefix p' l'
  | _ :: _, [] => False
  end.

(** What a probe calls when no step fails, in order. *)
Definition probeCalls (opts : Cmd.UDPScannerOpts) (ip : Addr) (port : Z)
    (req : Request) (buf : list Z) : list Event :=
  [SetupTurnConnection (Cmd.Protocol opts) (Cmd.TurnServer opts) ip port;
   SendAndReceive req;
   ConnectionWrite buf;
   ConnectionRead].

(** 1 for [true], 0 for [false]. *)
Definition count (b : bool) : nat := if b then 1%nat else 0%nat.

End Readers.
Import Readers.

(** * Proof steps shared by the two files *)

(** Splits on a scrutinee that contains no other case analysis. *)
Ltac split_innermost :=
  match goal with
  | |- context [match ?x with _ => _ end] =>
      lazymatch x with
      | context [match _ with _ => _ end] => fail
      | _ => destruct x eqn:?; simpl
      end
  end.

Ltac unfold_flow :=
  unfold run, bind, try, try_, defer, emit, ret, return_.

(** * Properties of the scanner *)

Module CmdFacts.
Import Cmd.

(** ** Lengths of the assembled payloads *)

Lemma len_app {A} (l1 l2 : list A) : len (l1 ++ l2) = len l1 + len l2.
Proof. unfold len. rewrite length_app. lia. Qed.

Lemma len_cons {A} (x : A) (l : list A) : len (x :: l) = 1 + len l.
Proof. unfold len. simpl List.length. lia. Qed.

Lemma len_nil {A} : len (@nil A) = 0.
Proof. reflexivity. Qed.

Lemma len_bytes (s : string) : len (bytes s) = slen s.
Proof.
  unfold len, slen, bytes. rewrite length_map. f_equal.
  induction s as [|c s IH]; simpl; congruence.
Qed.

Lemma len_PutUint16 (v : Z) : len (PutUint16 v) = 2.
Proof. reflexivity. Qed.

Lemma len_PutUint32 (v : Z) : len (PutUint32 v) = 4.
Proof. reflexivity. Qed.

Lemma slen_String (c : ascii) (s : string) : slen (String c s) = 1 + slen s.
Proof. unfold slen. simpl String.length. lia. Qed.

Lemma slen_nonneg (s : string) : 0 <= slen s.
Proof. unfold slen. lia. Qed.

Ltac lens :=
  repeat (rewrite ?len_app, ?len_cons, ?len_nil, ?len_bytes, ?len_PutUint16,
            ?len_PutUint32, ?slen_String).

Lemma len_snmp_inner (community : string) (requestID : Z) :
  len (snmp_inner community requestID) = 32 + slen community.
Proof. unfold snmp_inner. lens. lia. Qed.

Lemma len_snmp (community : string) (requestID : Z) :
  len (snmp community requestID) = 34 + slen community.
Proof. unfold snmp. lens. rewrite len_snmp_inner. lia. Qed.

(** Every label costs its bytes and one length byte, every dot is
    dropped: the labels of a name take one byte more than the name. *)
Lemma len_dns_labels_Split (dnsName : string) (sep : ascii) :
  len (dns_labels (Split dnsName sep)) = slen dnsName + 1.
Proof.
  induction dnsName as [|c t IH]; [reflexivity|].
  simpl Split. destruct (Ascii.eqb c sep).
  - change (dns_labels ("" :: Split t sep))
      with ([uint8 (slen "")] ++ bytes "" ++ dns_labels (Split t sep)).
    lens. rewrite IH. change (slen "") with 0. lia.
  - destruct (Split t sep) as [|piece pieces].
    + change (len (dns_labels [])) with 0 in IH. pose proof (slen_nonneg t). lia.
    + change (dns_labels (String c piece :: pieces))
        with ([uint8 (slen (String c piece))] ++ bytes (String c piece)
              ++ dns_labels pieces).
      change (dns_labels (piece :: pieces))
        with ([uint8 (slen piece)] ++ bytes piece ++ dns_labels pieces) in IH.
      revert IH. lens. lia.
Qed.

Lemma len_dns (dnsName : string) (rnd : Z) :
  len (dns dnsName rnd) = 18 + slen dnsName.
Proof.
  unfold dns, dns_domainBuf. lens. rewrite len_dns_labels_Split. lia.
Qed.

(** ** Case analysis of a probe *)

Ltac probe_paths :=
  unfold snmpScan, dnsScan; unfold_flow; simpl; repeat split_innermost.

(** The only requests a probe sends are ChannelBind requests, and they
    carry the realm and nonce that connection setup returned. *)
Lemma snmpScan_sent w opts ip port community io req :
  In req (sent (snd (snmpScan w opts ip port community io))) ->
  exists realm nonce,
    setup io = Ok (realm, nonce) /\
    req = ChannelBindRequest (Username opts) (Password opts) nonce realm ip port
            (randomChannelNumber io).
Proof.
  probe_paths; intros H; try contradiction;
    destruct H as [<- | []]; eauto.
Qed.

Lemma dnsScan_sent w opts ip port dnsName io req :
  In req (sent (snd (dnsScan w opts ip port dnsName io))) ->
  exists realm nonce,
    setup io = Ok (realm, nonce) /\
    req = ChannelBindRequest (Username opts) (Password opts) nonce realm ip port
            (randomChannelNumber io).
Proof.
  probe_paths; intros H; try contradiction;
    destruct H as [<- | []]; eauto.
Qed.

(** The only buffer a probe writes is the frame assembled for it. *)
Lemma snmpScan_written w opts ip port community io buf :
  In buf (written (snd (snmpScan w opts ip port community io))) ->
  buf = snmp_buf (randomChannelNumber io) community (randUint32 io).
Proof.
  probe_paths; intros H; try contradiction;
    destruct H as [<- | []]; reflexivity.
Qed.

Lemma dnsScan_written w opts ip port dnsName io buf :
  In buf (written (snd (dnsScan w opts ip port dnsName io))) ->
  buf = dns_buf (randomChannelNumber io) dnsName (randUint32 io).
Proof.
  probe_paths; intros H; try contradiction;
    destruct H as [<- | []]; reflexivity.
Qed.

(** ** What a probe returns *)

Lemma snmpScan_setups w opts ip port community io :
  filter isSetup (snd (snmpScan w opts ip port community io))
  = [SetupTurnConnection (Protocol opts) (TurnServer opts) ip port].
Proof. probe_paths; reflexivity. Qed.

Lemma dnsScan_setups w opts ip port dnsName io :
  filter isSetup (snd (dnsScan w opts ip port dnsName io))
  = [SetupTurnConnection (Protocol opts) (TurnServer opts) ip port].
Proof. probe_paths; reflexivity. Qed.

(** A probe itself never logs an error. *)
Lemma snmpScan_logs_no_error w opts ip port community io :
  existsb isErrorLog (snd (snmpScan w opts ip port community io)) = false.
Proof. probe_paths; reflexivity. Qed.

Lemma dnsScan_logs_no_error w opts ip port dnsName io :
  existsb isErrorLog (snd (dnsScan w opts ip port dnsName io)) = false.
Proof. probe_paths; reflexivity. Qed.

Ltac path_hyps :=
  unfold timesOut, answeredBy, reachesRead;
  repeat match goal with
         | H : _ = _ |- _ => rewrite H
         end;
  simpl; intros;
  repeat match goal with
         | H : context [match ?x with _ => _ end] |- _ =>
             lazymatch x with
             | context [match _ with _ => _ end] => fail
             | _ => destruct x eqn:?; simpl in H
             end
         end.

Lemma snmpScan_timesOut w opts ip port community io :
  timesOut io = true -> fst (snmpScan w opts ip port community io) = None.
Proof.
  probe_paths; path_hyps; try reflexivity; discriminate.
Qed.

Lemma dnsScan_timesOut w opts ip port dnsName io :
  timesOut io = true -> fst (dnsScan w opts ip port dnsName io) = None.
Proof.
  probe_paths; path_hyps; try reflexivity; discriminate.
Qed.

Lemma snmpScan_fails w opts ip port community io :
  timesOut io = false -> answeredBy w io = false ->
  exists e, fst (snmpScan w opts ip port community io) = Some e.
Proof.
  probe_paths; path_hyps; try discriminate; eauto.
Qed.

Lemma dnsScan_fails w opts ip port dnsName io :
  timesOut io = false -> answeredBy w io = false ->
  exists e, fst (dnsScan w opts ip port dnsName io) = Some e.
Proof.
  probe_paths; path_hyps; try discriminate; eauto.
Qed.

(** ** The loop *)

Lemma filter_logProbeError format ip err :
  filter isSetup (logProbeError format ip err) = [].
Proof. destruct err; reflexivity. Qed.

Lemma scanIP_setups w opts i ip :
  filter isSetup (scanIP w opts i ip) = setupsOf opts ip.
Proof.
  unfold scanIP, setupsOf. destruct (Error ip); [reflexivity|].
  cbv zeta. simpl filter.
  rewrite !filter_app, snmpScan_setups, dnsScan_setups, !filter_logProbeError.
  reflexivity.
Qed.

Lemma scanFrom_setups w opts items : forall i,
  filter isSetup (scanFrom w opts i items) = flat_map (setupsOf opts) items.
Proof.
  induction items as [|ip rest IH]; intros i; [reflexivity|].
  simpl. rewrite filter_app, scanIP_setups, IH. reflexivity.
Qed.

Lemma scanIP_logs_snmp_error w opts i ip e :
  Error ip = None ->
  fst (snmpScan w opts (IP ip) 161 (CommunityString opts) (probe w i 161)) = Some e ->
  In (Log ErrorLevel "error on running SNMP Scan for ip %s: %v"
        [ABytes (AsSlice (IP ip))] (Some e))
     (scanIP w opts i ip).
Proof.
  intros Hip He. unfold scanIP. rewrite Hip. cbv zeta. rewrite He.
  do 2 (apply in_or_app; right). apply in_or_app. left.
  left. reflexivity.
Qed.

Lemma scanIP_logs_dns_error w opts i ip e :
  Error ip = None ->
  fst (dnsScan w opts (IP ip) 53 (DomainName opts) (probe w i 53)) = Some e ->
  In (Log ErrorLevel "error on running DNS Scan for ip %s: %v"
        [ABytes (AsSlice (IP ip))] (Some e))
     (scanIP w opts i ip).
Proof.
  intros Hip He. unfold scanIP. rewrite Hip. cbv zeta. rewrite He.
  do 4 (apply in_or_app; right). left. reflexivity.
Qed.

(** ** Validation *)

Lemma Validate_None_iff (opts : UDPScannerOpts) :
  Validate opts = None <->
  TurnServer opts <> "" /\
  Contains (TurnServer opts) ":" = true /\
  (Protocol opts = "tcp" \/ Protocol opts = "udp") /\
  Username opts <> "" /\
  Password opts <> "" /\
  Log_ opts <> None /\
  CommunityString opts <> "" /\
  DomainName opts <> "".
Proof.
  unfold Validate.
  destruct (String.eqb_spec (TurnServer opts) "");
    [split; [discriminate | tauto]|].
  destruct (Contains (TurnServer opts) ":"); simpl;
    [|split; [discriminate | intros (_ & ? & _); discriminate]].
  destruct (String.eqb_spec (Protocol opts) "tcp");
    destruct (String.eqb_spec (Protocol opts) "udp"); simpl;
    try (split; [discriminate | tauto]).
  all: destruct (String.eqb_spec (Username opts) "");
    [split; [discriminate | tauto]|].
  all: destruct (String.eqb_spec (Password opts) "");
    [split; [discriminate | tauto]|].
  all: destruct (Log_ opts);
    [|split; [discriminate | tauto]].
  all: destruct (String.eqb_spec (CommunityString opts) "");
    [split; [discriminate | tauto]|].
  all: destruct (String.eqb_spec (DomainName opts) "");
    [split; [discriminate | tauto]|].
  all: split; [intros _|reflexivity].
  all: repeat split; auto; discriminate.
Qed.

(** ** The probe bytes *)

(** C4: for community ["public"] and request id [0xDEADBEEF] the SNMP
    payload is [30 26] followed by the bytes [02 01 01 04 06 "public"
    a1 19 02 04 DE AD BE EF 02 01 00 ... 05 00], where [26] is the
    length of what follows it, and the length field of the ChannelData
    frame around it is [00 28], the big-endian encoding of the
    payload's 40 bytes. *)
Theorem snmp_probe_public_bytes :
  snmp "public" 0xDEADBEEF
  = [0x30; 0x26;
     0x02; 0x01; 0x01; 0x04; 0x06; 0x70; 0x75; 0x62; 0x6c; 0x69; 0x63;
     0xa1; 0x19; 0x02; 0x04; 0xDE; 0xAD; 0xBE; 0xEF;
     0x02; 0x01; 0x00; 0x02; 0x01; 0x00; 0x30; 0x0b; 0x30; 0x09;
     0x06; 0x05; 0x2b; 0x06; 0x01; 0x02; 0x01; 0x05; 0x00]
  /\ 0x26 = len (snmp_inner "public" 0xDEADBEEF)
  /\ (forall channelNumber,
        snmp_buf channelNumber "public" 0xDEADBEEF
        = channelNumber ++ [0x00; 0x28] ++ snmp "public" 0xDEADBEEF)
  /\ 0x00 * 256 + 0x28 = len (snmp "public" 0xDEADBEEF).
Proof.
  split; [reflexivity|]. split; [reflexivity|].
  split; [intros channelNumber; reflexivity | reflexivity].
Qed.

(** C5: for the name ["a.b"] the DNS payload is a transaction id of two
    bytes followed by [01 00 00 01 00 00 00 00 00 00 01 61 01 62 00
    00 01 00 01]. *)
Theorem dns_probe_a_b_bytes (rnd : Z) :
  dns "a.b" rnd
  = PutUint16 (uint16 rnd)
    ++ [0x01; 0x00; 0x00; 0x01; 0x00; 0x00; 0x00; 0x00; 0x00; 0x00;
        0x01; 0x61; 0x01; 0x62; 0x00; 0x00; 0x01; 0x00; 0x01]
  /\ List.length (PutUint16 (uint16 rnd)) = 2%nat.
Proof. split; reflexivity. Qed.

(** ** The frames *)

Ltac mod4 :=
  repeat split; intros; try lia; Z.div_mod_to_equations; lia.

(** C3, as the claim states it, fails: the SNMP frame for the community
    ["private"] has 45 bytes and the DNS frame for ["a.b"] has 25. *)
Lemma scanner_frame_not_multiple_of_4 :
  let w := Samples.Scanner.world (fun _ _ => Samples.Scanner.answered) in
  let opts := Samples.Scanner.opts "private" "a.b" in
  exists snmpFrame dnsFrame,
    written (snd (snmpScan w opts Samples.tenOne 161 "private" Samples.Scanner.answered))
    = [snmpFrame]
    /\ written (snd (dnsScan w opts Samples.tenOne 53 "a.b" Samples.Scanner.answered))
       = [dnsFrame]
    /\ len snmpFrame = 45 /\ len snmpFrame mod 4 <> 0
    /\ len dnsFrame = 25 /\ len dnsFrame mod 4 <> 0.
Proof.
  cbv zeta. eexists. eexists.
  split; [vm_compute; reflexivity|].
  split; [vm_compute; reflexivity|].
  vm_compute. repeat split; discriminate.
Qed.

(** C3, amended: a frame the scanner writes is the channel number, the
    16-bit length of the payload and the payload, with nothing after
    it.  With a channel number of two bytes the SNMP frame has
    [38 + len(community)] bytes and the DNS frame [22 + len(dnsName)],
    so its length is a multiple of 4 exactly when the payload's is. *)
Theorem scanner_frames_are_unpadded w opts ip port community dnsName io :
  List.length (randomChannelNumber io) = 2%nat ->
  (forall buf, In buf (written (snd (snmpScan w opts ip port community io))) ->
     let payload := snmp community (randUint32 io) in
     buf = randomChannelNumber io ++ PutUint16 (uint16 (len payload)) ++ payload
     /\ len buf = 4 + len payload
     /\ len buf = 38 + slen community
     /\ (len buf mod 4 = 0 <-> len payload mod 4 = 0))
  /\
  (forall buf, In buf (written (snd (dnsScan w opts ip port dnsName io))) ->
     let payload := dns dnsName (randUint32 io) in
     buf = randomChannelNumber io ++ PutUint16 (uint16 (len payload)) ++ payload
     /\ len buf = 4 + len payload
     /\ len buf = 22 + slen dnsName
     /\ (len buf mod 4 = 0 <-> len payload mod 4 = 0)).
Proof.
  intros Hch.
  assert (Hlen : len (randomChannelNumber io) = 2) by (unfold len; lia).
  split; intros buf Hbuf; cbv zeta.
  - apply snmpScan_written in Hbuf. subst buf. unfold snmp_buf. cbv zeta.
    split; [reflexivity|]. lens. rewrite Hlen, len_snmp.
    generalize (slen community); intros n. mod4.
  - apply dnsScan_written in Hbuf. subst buf. unfold dns_buf. cbv zeta.
    split; [reflexivity|]. lens. rewrite Hlen, len_dns.
    generalize (slen dnsName); intros n. mod4.
Qed.

Lemma scanner_frames_are_unpadded_witness :
  List.length (randomChannelNumber Samples.Scanner.answered) = 2%nat
  /\ forall buf,
       In buf (written (snd (snmpScan
                 (Samples.Scanner.world (fun _ _ => Samples.Scanner.answered))
                 (Samples.Scanner.opts "private" "a.b")
                 Samples.tenOne 161 "private" Samples.Scanner.answered))) ->
       len buf = 38 + slen "private".
Proof.
  split; [reflexivity|].
  intros buf Hbuf.
  apply (proj1 (scanner_frames_are_unpadded
                  (Samples.Scanner.world (fun _ _ => Samples.Scanner.answered))
                  (Samples.Scanner.opts "private" "a.b")
                  Samples.tenOne 161 "private" "a.b" Samples.Scanner.answered
                  eq_refl) buf Hbuf).
Defined.

(** ** Timeouts and errors *)

(** C6: a probe that times out while the TURN connection is set up or
    while the response is read returns nil and logs no error, and the
    scan logs none for it; a probe that neither times out there nor
    is answered returns an error, which the scan logs; and whatever
    the probes return, the scan sets up a connection for both probes
    of every address the iterator delivers. *)
Theorem probe_timeouts_silent_other_errors_logged w opts :
  (forall ip port name io,
      timesOut io = true ->
      fst (snmpScan w opts ip port name io) = None /\
      existsb isErrorLog (snd (snmpScan w opts ip port name io)) = false /\
      fst (dnsScan w opts ip port name io) = None /\
      existsb isErrorLog (snd (dnsScan w opts ip port name io)) = false)
  /\
  (forall i ip,
      Error ip = None ->
      timesOut (probe w i 161) = true ->
      timesOut (probe w i 53) = true ->
      existsb isErrorLog (scanIP w opts i ip) = false)
  /\
  (forall i ip,
      Error ip = None ->
      timesOut (probe w i 161) = false ->
      answeredBy w (probe w i 161) = false ->
      exists e,
        fst (snmpScan w opts (IP ip) 161 (CommunityString opts) (probe w i 161))
        = Some e /\
        In (Log ErrorLevel "error on running SNMP Scan for ip %s: %v"
              [ABytes (AsSlice (IP ip))] (Some e))
           (scanIP w opts i ip))
  /\
  (forall i ip,
      Error ip = None ->
      timesOut (probe w i 53) = false ->
      answeredBy w (probe w i 53) = false ->
      exists e,
        fst (dnsScan w opts (IP ip) 53 (DomainName opts) (probe w i 53))
        = Some e /\
        In (Log ErrorLevel "error on running DNS Scan for ip %s: %v"
              [ABytes (AsSlice (IP ip))] (Some e))
           (scanIP w opts i ip))
  /\
  (forall i items,
      filter isSetup (scanFrom w opts i items) = flat_map (setupsOf opts) items).
Proof.
  split; [|split; [|split; [|split]]].
  - intros ip port name io Hto.
    rewrite snmpScan_timesOut, dnsScan_timesOut by assumption.
    rewrite snmpScan_logs_no_error, dnsScan_logs_no_error. tauto.
  - intros i ip Hip Hs Hd. unfold scanIP. rewrite Hip. cbv zeta.
    rewrite (snmpScan_timesOut w opts (IP ip) 161 (CommunityString opts) _ Hs).
    rewrite (dnsScan_timesOut w opts (IP ip) 53 (DomainName opts) _ Hd).
    rewrite !existsb_app, snmpScan_logs_no_error, dnsScan_logs_no_error.
    reflexivity.
  - intros i ip Hip Hto Hans.
    destruct (snmpScan_fails w opts (IP ip) 161 (CommunityString opts) _ Hto Hans)
      as [e He].
    exists e. split; [exact He|]. now apply scanIP_logs_snmp_error.
  - intros i ip Hip Hto Hans.
    destruct (dnsScan_fails w opts (IP ip) 53 (DomainName opts) _ Hto Hans)
      as [e He].
    exists e. split; [exact He|]. now apply scanIP_logs_dns_error.
  - intros i items. apply scanFrom_setups.
Qed.

(** In the sample scan the first address is refused by the TURN server
    on both probes: both errors are logged, and the scan still reaches
    the last address. *)
Lemma probe_timeouts_silent_other_errors_logged_witness :
  let w := Samples.Scanner.world Samples.Scanner.mostlyRefused in
  let opts := Samples.Scanner.opts "public" "a.b" in
  (exists e,
      fst (snmpScan w opts Samples.tenOne 161 "public" (probe w 0%nat 161)) = Some e /\
      In (Log ErrorLevel "error on running SNMP Scan for ip %s: %v"
            [ABytes [10; 0; 0; 1]] (Some e))
         (scanIP w opts 0 {| IP := Samples.tenOne; Error := None |}))
  /\ filter isSetup (scanFrom w opts 0 Samples.Scanner.items)
     = [SetupTurnConnection "tcp" "turn.example.org:3478" Samples.tenOne 161;
        SetupTurnConnection "tcp" "turn.example.org:3478" Samples.tenOne 53;
        SetupTurnConnection "tcp" "turn.example.org:3478" Samples.tenTwo 161;
        SetupTurnConnection "tcp" "turn.example.org:3478" Samples.tenTwo 53].
Proof.
  cbv zeta.
  pose proof (probe_timeouts_silent_other_errors_logged
                (Samples.Scanner.world Samples.Scanner.mostlyRefused)
                (Samples.Scanner.opts "public" "a.b"))
    as (_ & _ & Hsnmp & _ & Hsetups).
  split.
  - exact (Hsnmp 0%nat {| IP := Samples.tenOne; Error := None |}
             eq_refl eq_refl eq_refl).
  - rewrite Hsetups. reflexivity.
Defined.

(** ** What [UDPScanner] returns *)

(** C10: when validation passes, [UDPScanner] returns nil, whatever
    the probes do; when validation fails, [UDPScanner] returns the
    error of validation and has done nothing; so an error it returns is
    the error of validation, returned before anything was scanned. *)
Theorem UDPScanner_fails_only_on_validation w opts :
  (Validate opts = None -> fst (UDPScanner w opts) = None)
  /\
  (forall err,
      Validate opts = Some err -> UDPScanner w opts = (Some err, []))
  /\
  (forall err,
      fst (UDPScanner w opts) = Some err ->
      Validate opts = Some err /\ snd (UDPScanner w opts) = []).
Proof.
  unfold UDPScanner. destruct (Validate opts) as [e|]; simpl.
  - split; [discriminate|]. split.
    + intros err [= <-]. reflexivity.
    + intros err [= <-]. split; reflexivity.
  - split; [reflexivity|]. split; discriminate.
Qed.

(** The sample scan logs one iteration error and three probe errors,
    and returns nil; the same scan without a TURN server returns the
    error of validation and does nothing. *)
Lemma UDPScanner_fails_only_on_validation_witness :
  let w := Samples.Scanner.world Samples.Scanner.mostlyRefused in
  let opts := Samples.Scanner.opts "public" "a.b" in
  let invalid := Samples.Scanner.noServer in
  (Validate opts = None
   /\ List.length (filter isErrorLog (snd (UDPScanner w opts))) = 4%nat
   /\ fst (UDPScanner w opts) = None)
  /\
  (Validate invalid = Some (Errorf "need a valid turnserver" [])
   /\ UDPScanner w invalid = (Some (Errorf "need a valid turnserver" []), [])).
Proof.
  cbv zeta. split.
  - split; [reflexivity|]. split; [reflexivity|].
    apply (proj1 (UDPScanner_fails_only_on_validation
                    (Samples.Scanner.world Samples.Scanner.mostlyRefused)
                    (Samples.Scanner.opts "public" "a.b"))).
    reflexivity.
  - split; [reflexivity|].
    apply (proj1 (proj2 (UDPScanner_fails_only_on_validation
                           (Samples.Scanner.world Samples.Scanner.mostlyRefused)
                           Samples.Scanner.noServer))).
    reflexivity.
Defined.

(** ** Length bounds *)

(** C8, as the claim states it, fails: a configuration whose community
    string has 300 bytes and whose domain name starts with a label of
    64 bytes passes validation; the scan runs, and the SNMP frame it
    writes announces a community string of 44 bytes. *)
Lemma long_community_string_is_probed :
  let w := Samples.Scanner.world (fun _ _ => Samples.Scanner.answered) in
  let opts :=
    Samples.Scanner.opts (Samples.manyA 300)
      (String.append (Samples.manyA 64) ".b") in
  127 < slen (CommunityString opts)
  /\ In (Samples.manyA 64) (Split (DomainName opts) ".")
  /\ Validate opts = None
  /\ fst (UDPScanner w opts) = None
  /\ List.length (written (snd (UDPScanner w opts))) = 4%nat
  /\ nth 10 (hd [] (written (snd (UDPScanner w opts)))) 0 = 44.
Proof.
  cbv zeta. split; [reflexivity|].
  split; [left; reflexivity|].
  repeat split; vm_compute; reflexivity.
Qed.

(** C8, amended: validation accepts a configuration exactly when the
    TURN server is set and contains [":"], the protocol is [tcp] or
    [udp], and user name, password, logger, community string and
    domain name are set; no length is bounded.  The length byte of
    the community string is its length modulo 256, and so is the
    length byte of every label of the domain name. *)
Theorem Validate_bounds_no_length opts :
  (Validate opts = None <->
   TurnServer opts <> "" /\
   Contains (TurnServer opts) ":" = true /\
   (Protocol opts = "tcp" \/ Protocol opts = "udp") /\
   Username opts <> "" /\
   Password opts <> "" /\
   Log_ opts <> None /\
   CommunityString opts <> "" /\
   DomainName opts <> "")
  /\
  (forall requestID,
      nth 4 (snmp_inner (CommunityString opts) requestID) 0
      = slen (CommunityString opts) mod 256)
  /\
  (forall x rest,
      dns_labels (x :: rest) = [slen x mod 256] ++ bytes x ++ dns_labels rest).
Proof.
  split; [apply Validate_None_iff|].
  split; [intros requestID; reflexivity | intros x rest; reflexivity].
Qed.

End CmdFacts.

(** * Properties of the SOCKS handler *)

Module SocksFacts.
Import Socksimplementations.

(** ** PreHandler *)

(** The switch on the address type makes no call that is traced. *)
Lemma PreHandler_target_trace w s request :
  snd (PreHandler_target w s request) = [].
Proof.
  unfold PreHandler_target, refuse; unfold_flow.
  repeat split_innermost; reflexivity.
Qed.

(** C7: with [DropNonPrivateRequests] set, a request whose target is
    resolved and is not a private address is refused with
    [HostUnreachable], the handler is left as it was, and
    [SetupTurnTCPConnection] is not called. *)
Theorem PreHandler_drops_non_private w s request target :
  DropNonPrivateRequests s = true ->
  fst (PreHandler_target w s request) = inl target ->
  IsPrivateIP w target = false ->
  fst (PreHandler w s request)
  = (Refused {| Reason := RequestReplyHostUnreachable;
                Err_ := Errorf "dropping non private connection to %s:%d"
                          [ABytes (AsSlice target);
                           AInt (DestinationPort request)] |},
     s)
  /\ existsb isSetup (snd (PreHandler w s request)) = false.
Proof.
  intros Hdrop Htarget Hprivate.
  pose proof (PreHandler_target_trace w s request) as Htrace.
  unfold PreHandler.
  destruct (PreHandler_target w s request) as [r t]. simpl in Htarget, Htrace.
  subst r t. unfold refuse; unfold_flow. rewrite Hdrop, Hprivate. simpl.
  split; reflexivity.
Qed.

(** [CONNECT www.example.com:80], resolved to 93.184.216.34. *)
Lemma PreHandler_drops_non_private_witness :
  let w := Samples.Socks.world (fun _ => Ok Samples.success) in
  let s := Samples.Socks.handler true in
  DropNonPrivateRequests s = true
  /\ fst (PreHandler_target w s Samples.Socks.connectExample) = inl Samples.exampleCom
  /\ IsPrivateIP w Samples.exampleCom = false
  /\ fst (PreHandler w s Samples.Socks.connectExample)
     = (Refused {| Reason := RequestReplyHostUnreachable;
                   Err_ := Errorf "dropping non private connection to %s:%d"
                             [ABytes [93; 184; 216; 34]; AInt 80] |},
        s)
  /\ existsb isSetup (snd (PreHandler w s Samples.Socks.connectExample)) = false.
Proof.
  cbv zeta.
  split; [reflexivity|]. split; [reflexivity|]. split; [reflexivity|].
  apply (PreHandler_drops_non_private
           (Samples.Socks.world (fun _ => Ok Samples.success))
           (Samples.Socks.handler true)
           Samples.Socks.connectExample (target := Samples.exampleCom));
    reflexivity.
Defined.

(** ** Refresh *)

Lemma MessageClass_eqb_eq a b : MessageClass_eqb a b = true <-> a = b.
Proof. destruct a, b; simpl; split; congruence. Qed.

(** One call looks at one case of the select, and sends at most two
    requests. *)
Lemma Refresh_consumes_one_case w s ready :
  pending (Refresh w s ready) = tl ready
  /\ (List.length (sent (trace (Refresh w s ready))) <= 2)%nat.
Proof.
  destruct ready as [|[|] rest]; simpl; [split; auto; lia ..|].
  split; [reflexivity|].
  unfold_flow; simpl; repeat split_innermost; simpl; lia.
Qed.

(** C1 fails on the code: when the first tick is served and the
    refresh succeeds, [Refresh] returns; the next tick stays pending
    and no further request is sent. *)
Theorem Refresh_serves_a_single_tick w s rest response :
  sendAndReceive w 0 = Ok response ->
  Class response <> MsgTypeClassError ->
  Refresh w s (TickC :: TickC :: rest)
  = {| status := Returned;
       pending := TickC :: rest;
       trace := [Log DebugLevel "[socks] refreshing connection" [] None;
                 SendAndReceive
                   (RefreshRequest (TURNUsername s) (TURNPassword s) "" "")] |}.
Proof.
  intros Hreply Hclass. unfold Refresh; unfold_flow. rewrite Hreply. simpl.
  destruct (MessageClass_eqb (Class response) MsgTypeClassError) eqn:E.
  - apply MessageClass_eqb_eq in E. contradiction.
  - reflexivity.
Qed.

(** A session that lives through three ticks, every refresh answered
    with a success response. *)
Lemma Refresh_serves_a_single_tick_witness :
  let w := Samples.Socks.world (fun _ => Ok Samples.success) in
  let s := Samples.Socks.handler false in
  sendAndReceive w 0 = Ok Samples.success
  /\ Class Samples.success <> MsgTypeClassError
  /\ Refresh w s [TickC; TickC; TickC]
     = {| status := Returned;
          pending := [TickC; TickC];
          trace := [Log DebugLevel "[socks] refreshing connection" [] None;
                    SendAndReceive (RefreshRequest "user" "pw" "" "")] |}.
Proof.
  cbv zeta. split; [reflexivity|]. split; [discriminate|].
  apply (Refresh_serves_a_single_tick
           (Samples.Socks.world (fun _ => Ok Samples.success))
           (Samples.Socks.handler false) [TickC]
           (response := Samples.success)).
  - reflexivity.
  - discriminate.
Defined.

(** C2: when the response to the Refresh request is of class error,
    the request is sent once more, with the realm and nonce of that
    response, and nothing is sent after it; when the second response
    is of class error too, its error string is logged and [Refresh]
    returns. *)
Theorem Refresh_retries_once_on_error w s rest response :
  sendAndReceive w 0 = Ok response ->
  Class response = MsgTypeClassError ->
  let realm := string_of_bytes (Value (GetAttribute w response AttrRealm)) in
  let nonce := string_of_bytes (Value (GetAttribute w response AttrNonce)) in
  let first := RefreshRequest (TURNUsername s) (TURNPassword s) "" "" in
  let second := RefreshRequest (TURNUsername s) (TURNPassword s) nonce realm in
  sent (trace (Refresh w s (TickC :: rest))) = [first; second]
  /\ status (Refresh w s (TickC :: rest)) = Returned
  /\ (forall response',
        sendAndReceive w 1 = Ok response' ->
        Class response' = MsgTypeClassError ->
        trace (Refresh w s (TickC :: rest))
        = [Log DebugLevel "[socks] refreshing connection" [] None;
           SendAndReceive first;
           SendAndReceive second;
           Log ErrorLevel "" [AStr (GetErrorString w response')] None]).
Proof.
  intros Hreply Hclass. cbv zeta.
  unfold Refresh; unfold_flow. rewrite Hreply, Hclass. simpl.
  split; [|split; [reflexivity|]].
  - repeat split_innermost; reflexivity.
  - intros response' Hreply' Hclass'. rewrite Hreply', Hclass'. reflexivity.
Qed.

(** Both responses are [438 Stale Nonce] with realm ["r"] and nonce
    ["n2"]. *)
Lemma Refresh_retries_once_on_error_witness :
  let w := Samples.Socks.world (fun _ => Ok Samples.staleNonce) in
  let s := Samples.Socks.handler false in
  sendAndReceive w 0 = Ok Samples.staleNonce
  /\ Class Samples.staleNonce = MsgTypeClassError
  /\ sent (trace (Refresh w s [TickC]))
     = [RefreshRequest "user" "pw" "" ""; RefreshRequest "user" "pw" "n2" "r"].
Proof.
  cbv zeta. split; [reflexivity|]. split; [reflexivity|].
  apply (proj1 (Refresh_retries_once_on_error
                  (Samples.Socks.world (fun _ => Ok Samples.staleNonce))
                  (Samples.Socks.handler false) []
                  (response := Samples.staleNonce) eq_refl eq_refl)).
Defined.

End SocksFacts.

(** * Realm and nonce of the requests *)

Module AuthFacts.
Import Cmd Socksimplementations.

Lemma Refresh_first_request w s ready req rest :
  sent (trace (Refresh w s ready)) = req :: rest ->
  req = RefreshRequest (TURNUsername s) (TURNPassword s) "" "".
Proof.
  destruct ready as [|[|] ready']; simpl; try discriminate.
  unfold_flow; simpl; repeat split_innermost; simpl; congruence.
Qed.

Lemma Refresh_second_request w s ready first second rest :
  sent (trace (Refresh w s ready)) = first :: second :: rest ->
  exists response,
    sendAndReceive w 0 = Ok response /\
    Class response = MsgTypeClassError /\
    second = RefreshRequest (TURNUsername s) (TURNPassword s)
               (string_of_bytes (Value (GetAttribute w response AttrNonce)))
               (string_of_bytes (Value (GetAttribute w response AttrRealm))) /\
    rest = [].
Proof.
  destruct ready as [|[|] ready']; simpl; try discriminate.
  unfold_flow. destruct (sendAndReceive w 0) as [response|err]; simpl;
    [|discriminate].
  destruct (MessageClass_eqb (Class response) MsgTypeClassError) eqn:E; simpl;
    [|discriminate].
  apply SocksFacts.MessageClass_eqb_eq in E.
  repeat split_innermost; intros H; injection H as _ Hsecond Hrest;
    exists response; auto.
Qed.

(** C9, as the claim states it, fails: in a session whose server
    answers with realm ["r"] and nonce ["n2"], the first Refresh
    request carries an empty realm and an empty nonce. *)
Lemma first_Refresh_carries_empty_realm_and_nonce :
  sent (trace (Refresh (Samples.Socks.world (fun _ => Ok Samples.staleNonce))
                 (Samples.Socks.handler false) [TickC]))
  = [RefreshRequest "user" "pw" "" ""; RefreshRequest "user" "pw" "n2" "r"].
Proof. reflexivity. Qed.

(** C9, amended: the ChannelBind request of a probe carries the realm
    and nonce that connection setup returned.  The first Refresh
    request of a call of [Refresh] carries an empty realm and an empty
    nonce; a second one carries the realm and nonce of the error
    response to the first, and is the last. *)
Theorem requests_carry_realm_and_nonce :
  (forall w opts ip port name io req,
      In req (sent (snd (snmpScan w opts ip port name io))) \/
      In req (sent (snd (dnsScan w opts ip port name io))) ->
      exists realm nonce,
        setup io = Ok (realm, nonce) /\
        req = ChannelBindRequest (Username opts) (Password opts) nonce realm
                ip port (randomChannelNumber io))
  /\
  (forall w s ready req rest,
      sent (trace (Refresh w s ready)) = req :: rest ->
      req = RefreshRequest (TURNUsername s) (TURNPassword s) "" "")
  /\
  (forall w s ready first second rest,
      sent (trace (Refresh w s ready)) = first :: second :: rest ->
      exists response,
        sendAndReceive w 0 = Ok response /\
        Class response = MsgTypeClassError /\
        second = RefreshRequest (TURNUsername s) (TURNPassword s)
                   (string_of_bytes (Value (GetAttribute w response AttrNonce)))
                   (string_of_bytes (Value (GetAttribute w response AttrRealm))) /\
        rest = []).
Proof.
  split; [|split].
  - intros w opts ip port name io req [H | H].
    + eapply CmdFacts.snmpScan_sent; eassumption.
    + eapply CmdFacts.dnsScan_sent; eassumption.
  - exact Refresh_first_request.
  - exact Refresh_second_request.
Qed.

(** The sample probe and the sample session. *)
Lemma requests_carry_realm_and_nonce_witness :
  (forall req,
      In req (sent (snd (snmpScan
                 (Samples.Scanner.world (fun _ _ => Samples.Scanner.answered))
                 (Samples.Scanner.opts "public" "a.b")
                 Samples.tenOne 161 "public" Samples.Scanner.answered))) ->
      req = ChannelBindRequest "user" "pw" "n1" "r" Samples.tenOne 161 [0x40; 0x00])
  /\ (forall req rest,
        sent (trace (Refresh (Samples.Socks.world (fun _ => Ok Samples.staleNonce))
                       (Samples.Socks.handler false) [TickC]))
        = req :: rest ->
        req = RefreshRequest "user" "pw" "" "").
Proof.
  destruct requests_carry_realm_and_nonce as (Hbind & Hfirst & _).
  split.
  - intros req Hreq.
    destruct (Hbind _ _ _ _ _ _ req (or_introl Hreq)) as (realm & nonce & Hs & ->).
    injection Hs as <- <-. reflexivity.
  - intros req rest Hsent. exact (Hfirst _ _ _ req rest Hsent).
Defined.

End AuthFacts.


(** * Further properties of the scanner *)

Module CmdExtra.
Import Cmd CmdFacts.

(** ** The probe bytes are bytes *)

Lemma isByte_uint8 (n : Z) : isByte (uint8 n) = true.
Proof.
  unfold isByte, uint8. pose proof (Z.mod_pos_bound n 256 ltac:(lia)).
  apply andb_true_intro. split; [apply Z.leb_le | apply Z.ltb_lt]; lia.
Qed.

Lemma isByte_land_ff (v : Z) : isByte (Z.land v 0xff) = true.
Proof.
  change 0xff with (Z.ones 8). rewrite Z.land_ones by lia.
  apply isByte_uint8.
Qed.

Lemma isByte_byte_of_ascii (c : ascii) : isByte (byte_of_ascii c) = true.
Proof.
  unfold isByte, byte_of_ascii. pose proof (nat_ascii_bounded c).
  apply andb_true_intro. split; [apply Z.leb_le | apply Z.ltb_lt]; lia.
Qed.

Lemma forallb_isByte_bytes (s : string) : forallb isByte (bytes s) = true.
Proof.
  unfold bytes. induction s as [|c s IH]; [reflexivity|].
  simpl. rewrite isByte_byte_of_ascii. exact IH.
Qed.

Lemma forallb_isByte_PutUint16 (v : Z) : forallb isByte (PutUint16 v) = true.
Proof. unfold PutUint16. simpl. now rewrite !isByte_land_ff. Qed.

Lemma forallb_isByte_PutUint32 (v : Z) : forallb isByte (PutUint32 v) = true.
Proof. unfold PutUint32. simpl. now rewrite !isByte_land_ff. Qed.

Lemma forallb_isByte_dns_labels (parts : list string) :
  forallb isByte (dns_labels parts) = true.
Proof.
  induction parts as [|x rest IH]; [reflexivity|].
  simpl. rewrite isByte_uint8, forallb_app, forallb_isByte_bytes. exact IH.
Qed.

(** X1: when the channel number consists of bytes, every element of the
    SNMP frame and of the DNS frame is a byte, for every community
    string, domain name and random value. *)
Theorem frames_consist_of_bytes channelNumber community dnsName rnd :
  forallb isByte channelNumber = true ->
  forallb isByte (snmp_buf channelNumber community rnd) = true
  /\ forallb isByte (dns_buf channelNumber dnsName rnd) = true.
Proof.
  intros Hch. split.
  - unfold snmp_buf, snmp, snmp_inner. cbv zeta.
    rewrite !forallb_app, Hch, forallb_isByte_PutUint16, forallb_isByte_bytes,
      forallb_isByte_PutUint32.
    simpl. rewrite !isByte_uint8. reflexivity.
  - unfold dns_buf, dns, dns_domainBuf. cbv zeta.
    rewrite !forallb_app, Hch, !forallb_isByte_PutUint16, forallb_isByte_dns_labels.
    reflexivity.
Qed.

Lemma frames_consist_of_bytes_witness :
  forallb isByte [0x40; 0x00] = true
  /\ forallb isByte (snmp_buf [0x40; 0x00] (Samples.manyA 300) 0xDEADBEEF) = true.
Proof.
  split; [reflexivity|].
  apply (proj1 (frames_consist_of_bytes [0x40; 0x00] (Samples.manyA 300) "a.b"
                  0xDEADBEEF eq_refl)).
Defined.

(** ** The length bytes of the SNMP message *)

Lemma snmp_head (community : string) (requestID : Z) :
  snmp community requestID
  = 0x30 :: uint8 (len (snmp_inner community requestID))
    :: 0x02 :: 0x01 :: 1 :: 0x04 :: uint8 (slen community)
    :: bytes community
       ++ [0xa1; 0x19; 0x02; 0x04] ++ PutUint32 requestID
       ++ [0x02; 0x01; 0x00; 0x02; 0x01; 0x00; 0x30; 0x0b; 0x30; 0x09;
           0x06; 0x05; 0x2b; 0x06; 0x01; 0x02; 0x01; 0x05; 0x00].
Proof. reflexivity. Qed.

(** X2: the length byte of the sequence is the number of bytes after it
    exactly when the community string has at most 223 bytes, and the
    length byte of the community string is its length exactly when it
    has at most 255 bytes. *)
Theorem snmp_length_bytes_exact community requestID :
  (nth 1 (snmp community requestID) 0 = len (snmp community requestID) - 2
   <-> slen community <= 223)
  /\
  (nth 6 (snmp community requestID) 0 = slen community
   <-> slen community <= 255).
Proof.
  rewrite len_snmp. rewrite snmp_head. cbn [nth].
  rewrite len_snmp_inner. unfold uint8.
  pose proof (slen_nonneg community) as Hn.
  generalize dependent (slen community). intros n Hn.
  split; split; intros H.
  - pose proof (Z.mod_pos_bound (32 + n) 256 ltac:(lia)). lia.
  - rewrite Z.mod_small by lia. lia.
  - pose proof (Z.mod_pos_bound n 256 ltac:(lia)). lia.
  - apply Z.mod_small. lia.
Qed.

(** X3: a community string of at most 255 bytes is read back from the
    SNMP message. *)
Theorem snmp_community_read_back community requestID :
  slen community <= 255 ->
  readCommunity (snmp community requestID) = Some (bytes community).
Proof.
  intros Hlen. rewrite snmp_head. unfold readCommunity.
  pose proof (slen_nonneg community) as Hn.
  unfold uint8. rewrite (Z.mod_small (slen community)) by lia.
  rewrite <- (len_bytes community). unfold len. rewrite Nat2Z.id.
  rewrite length_app.
  match goal with
  | |- (if ?c then _ else _) = _ =>
      replace c with false by (symmetry; apply Z.ltb_ge; lia)
  end.
  rewrite firstn_app, Nat.sub_diag, firstn_all. simpl. now rewrite app_nil_r.
Qed.

Lemma snmp_community_read_back_witness :
  slen "public" <= 255
  /\ readCommunity (snmp "public" 0xDEADBEEF) = Some (bytes "public").
Proof.
  split; [vm_compute; discriminate|].
  apply (snmp_community_read_back "public" 0xDEADBEEF). vm_compute. discriminate.
Defined.

(** ** The frame is read back *)

Lemma Uint16_PutUint16 (v : Z) (rest : list Z) :
  0 <= v < 65536 -> Uint16 (PutUint16 v ++ rest) = Some v.
Proof.
  intros Hv. unfold PutUint16, Uint16. simpl. f_equal.
  change 0xff with (Z.ones 8). rewrite !Z.land_ones by lia.
  rewrite Z.shiftr_div_pow2 by lia.
  change (2 ^ 8) with 256.
  rewrite (Z.mod_small (v / 256)) by (split; [apply Z.div_pos; lia |
    apply Z.div_lt_upper_bound; lia]).
  pose proof (Z.div_mod v 256 ltac:(lia)). lia.
Qed.

Lemma readFrame_frame (c1 c2 : Z) (payload : list Z) :
  len payload < 65536 ->
  readFrame ([c1; c2] ++ PutUint16 (uint16 (len payload)) ++ payload)
  = Some ([c1; c2], payload).
Proof.
  intros Hlen. assert (0 <= len payload) by (unfold len; lia).
  unfold uint16. rewrite Z.mod_small by lia.
  change ([c1; c2] ++ PutUint16 (len payload) ++ payload)
    with (c1 :: c2 :: PutUint16 (len payload) ++ payload).
  unfold readFrame.
  rewrite Uint16_PutUint16 by lia.
  change (skipn 2 (PutUint16 (len payload) ++ payload)) with payload.
  fold (len payload). now rewrite Z.eqb_refl.
Qed.

(** X4: with a channel number of two bytes, a community string of at
    most 65501 bytes and a domain name of at most 65517 bytes, the
    length field of the frame announces exactly the payload: reading
    the frame gives the channel number and the payload back. *)
Theorem frames_read_back c1 c2 community dnsName rnd :
  slen community <= 65501 ->
  slen dnsName <= 65517 ->
  readFrame (snmp_buf [c1; c2] community rnd) = Some ([c1; c2], snmp community rnd)
  /\ readFrame (dns_buf [c1; c2] dnsName rnd) = Some ([c1; c2], dns dnsName rnd).
Proof.
  intros Hc Hd. split.
  - unfold snmp_buf. cbv zeta. apply readFrame_frame. rewrite len_snmp. lia.
  - unfold dns_buf. cbv zeta. apply readFrame_frame. rewrite len_dns. lia.
Qed.

Lemma frames_read_back_witness :
  slen "public" <= 65501 /\ slen "a.b" <= 65517
  /\ readFrame (snmp_buf [0x40; 0x00] "public" 0xDEADBEEF)
     = Some ([0x40; 0x00], snmp "public" 0xDEADBEEF).
Proof.
  split; [vm_compute; discriminate|]. split; [vm_compute; discriminate|].
  apply (proj1 (frames_read_back 0x40 0x00 "public" "a.b" 0xDEADBEEF
                  ltac:(vm_compute; discriminate) ltac:(vm_compute; discriminate))).
Defined.

(** ** The domain name is read back *)

Lemma string_of_bytes_bytes (s : string) : string_of_bytes (bytes s) = s.
Proof.
  unfold string_of_bytes, bytes. rewrite map_map.
  induction s as [|c s IH]; [reflexivity|].
  simpl. rewrite IH. f_equal.
  unfold ascii_of_byte, byte_of_ascii. rewrite Nat2Z.id.
  apply ascii_nat_embedding.
Qed.

Lemma Split_nonempty (s : string) (sep : ascii) : Split s sep <> [].
Proof.
  destruct s as [|c t]; simpl; [discriminate|].
  destruct (Ascii.eqb c sep); [discriminate|].
  destruct (Split t sep); discriminate.
Qed.

(** Joining the pieces with the separator gives the string back. *)
Lemma concat_Split (s : string) (sep : ascii) :
  String.concat (String sep "") (Split s sep) = s.
Proof.
  induction s as [|c t IH]; [reflexivity|].
  simpl Split. destruct (Ascii.eqb_spec c sep) as [->|Hne].
  - pose proof (Split_nonempty t sep) as Hnil.
    destruct (Split t sep) as [|p ps]; [contradiction|].
    simpl in *. now rewrite IH.
  - destruct (Split t sep) as [|p ps] eqn:E.
    + now apply Split_nonempty in E.
    + destruct ps as [|q qs]; simpl in *; now rewrite <- IH.
Qed.

Lemma readName_labels (labels : list string) (rest : list Z) : forall fuel,
  Forall (fun l => 0 < slen l <= 255) labels ->
  (List.length labels < fuel)%nat ->
  readName fuel (dns_labels labels ++ 0 :: rest) = Some (map bytes labels, rest).
Proof.
  induction labels as [|x ls IH]; intros fuel Hall Hfuel.
  - destruct fuel; [simpl in Hfuel; lia | reflexivity].
  - destruct fuel as [|fuel]; [simpl in Hfuel; lia|].
    inversion Hall as [|? ? Hx Hls]; subst.
    change (dns_labels (x :: ls) ++ 0 :: rest)
      with (uint8 (slen x) :: (bytes x ++ dns_labels ls) ++ 0 :: rest).
    unfold uint8. rewrite Z.mod_small by lia.
    cbn [readName].
    destruct (Z.eqb_spec (slen x) 0) as [E|_]; [lia|].
    rewrite <- app_assoc.
    rewrite <- (len_bytes x). unfold len. rewrite Nat2Z.id.
    replace (Z.of_nat (List.length (bytes x ++ dns_labels ls ++ 0 :: rest))
             <? Z.of_nat (List.length (bytes x)))
      with false by (symmetry; apply Z.ltb_ge; rewrite length_app; lia).
    rewrite skipn_app, Nat.sub_diag, skipn_all. cbn [skipn app].
    rewrite IH by (auto; simpl in Hfuel; lia).
    rewrite firstn_app, Nat.sub_diag, firstn_all. cbn [firstn].
    now rewrite app_nil_r.
Qed.

(** X5: when every label of the domain name has between 1 and 255
    bytes, the question of the DNS query is read back: the labels
    before the null byte, joined by dots, are the domain name, and the
    four bytes of QTYPE and QCLASS follow. *)
Theorem dns_name_read_back dnsName :
  Forall (fun l => 0 < slen l <= 255) (Split dnsName ".") ->
  exists labels,
    readName (S (List.length (Split dnsName "."))) (dns_domainBuf dnsName)
    = Some (labels, [0x00; 0x01; 0x00; 0x01])
    /\ String.concat "." (map string_of_bytes labels) = dnsName.
Proof.
  intros Hall. exists (map bytes (Split dnsName ".")). split.
  - unfold dns_domainBuf.
    change ([0x00] ++ PutUint16 1 ++ PutUint16 1) with (0 :: [0x00; 0x01; 0x00; 0x01]).
    apply readName_labels; [exact Hall | lia].
  - rewrite map_map.
    rewrite (map_ext _ (fun s => s) string_of_bytes_bytes), map_id.
    apply concat_Split.
Qed.

Lemma dns_name_read_back_witness :
  Forall (fun l => 0 < slen l <= 255) (Split "www.example.com" ".")
  /\ exists labels,
       readName 4 (dns_domainBuf "www.example.com")
       = Some (labels, [0x00; 0x01; 0x00; 0x01])
       /\ String.concat "." (map string_of_bytes labels) = "www.example.com".
Proof.
  assert (H : Forall (fun l => 0 < slen l <= 255) (Split "www.example.com" "."))
    by (repeat constructor; vm_compute; discriminate).
  split; [exact H|].
  exact (dns_name_read_back "www.example.com" H).
Defined.

(** ** Empty labels *)

Lemma Split_append_sep (s : string) (sep : ascii) :
  Split (String.append s (String sep "")) sep = Split s sep ++ [""].
Proof.
  induction s as [|c t IH].
  - simpl. now rewrite Ascii.eqb_refl.
  - simpl. destruct (Ascii.eqb c sep).
    + now rewrite IH.
    + rewrite IH. pose proof (Split_nonempty t sep) as Hnil.
      destruct (Split t sep) as [|p ps]; [contradiction | reflexivity].
Qed.

Lemma dns_labels_app (l1 l2 : list string) :
  dns_labels (l1 ++ l2) = dns_labels l1 ++ dns_labels l2.
Proof.
  induction l1 as [|x l1 IH]; [reflexivity|].
  simpl. rewrite IH, <- app_assoc. reflexivity.
Qed.

(** X6: a domain name written with a dot at its end gets an empty last
    label, whose length byte is a null byte: the name is terminated one
    byte early and QTYPE and QCLASS come after a second null byte. *)
Theorem dns_trailing_dot_adds_null_byte dnsName :
  dns_domainBuf (String.append dnsName ".")
  = dns_labels (Split dnsName ".") ++ [0x00; 0x00; 0x00; 0x01; 0x00; 0x01].
Proof.
  unfold dns_domainBuf. rewrite Split_append_sep, dns_labels_app, <- app_assoc.
  reflexivity.
Qed.

(** ** The connection of a probe *)

(** X7: a probe closes its connection exactly once when the TURN
    connection was set up, as the last thing it does, and never
    otherwise, whichever later step fails. *)
Theorem probe_closes_its_connection w opts ip port name io :
  let closes t := List.length (filter isClose t) in
  let s := snd (snmpScan w opts ip port name io) in
  let d := snd (dnsScan w opts ip port name io) in
  match setup io with
  | Ok _ => closes s = 1%nat /\ last s ConnectionRead = Close
            /\ closes d = 1%nat /\ last d ConnectionRead = Close
  | Err _ => closes s = 0%nat /\ closes d = 0%nat
  end.
Proof.
  cbv zeta. probe_paths; repeat split; reflexivity.
Qed.

(** X8: the calls of a probe are an initial segment of: set up the
    TURN connection, send the ChannelBind request, write the frame,
    read.  No step is taken before the ones in front of it, and none is
    repeated. *)
Theorem probe_calls_in_order w opts ip port name io :
  (exists req,
      isPrefix (calls (snd (snmpScan w opts ip port name io)))
        (probeCalls opts ip port req
           (snmp_buf (randomChannelNumber io) name (randUint32 io))))
  /\
  (exists req,
      isPrefix (calls (snd (dnsScan w opts ip port name io)))
        (probeCalls opts ip port req
           (dns_buf (randomChannelNumber io) name (randUint32 io)))).
Proof.
  split.
  - exists (ChannelBindRequest (Username opts) (Password opts)
              (match setup io with Ok (_, nonce) => nonce | Err _ => "" end)
              (match setup io with Ok (realm, _) => realm | Err _ => "" end)
              ip port (randomChannelNumber io)).
    probe_paths; simpl; auto.
  - exists (ChannelBindRequest (Username opts) (Password opts)
              (match setup io with Ok (_, nonce) => nonce | Err _ => "" end)
              (match setup io with Ok (realm, _) => realm | Err _ => "" end)
              ip port (randomChannelNumber io)).
    probe_paths; simpl; auto.
Qed.

(** X9: a probe writes to the peer only after the channel is bound:
    the TURN connection was set up, the ChannelBind request was built
    and its response is not of class error.  It writes at most one
    frame. *)
Theorem probe_writes_only_when_bound w opts ip port name io :
  (written (snd (snmpScan w opts ip port name io)) <> [] \/
   written (snd (dnsScan w opts ip port name io)) <> []) ->
  (exists realm nonce response,
      setup io = Ok (realm, nonce) /\
      channelBindRequestErr io = None /\
      channelBindResponse io = Ok response /\
      Class response <> MsgTypeClassError)
  /\ (List.length (written (snd (snmpScan w opts ip port name io))) <= 1)%nat
  /\ (List.length (written (snd (dnsScan w opts ip port name io))) <= 1)%nat.
Proof.
  assert (Hclass : forall r, MessageClass_eqb (Class r) MsgTypeClassError = false ->
                             Class r <> MsgTypeClassError).
  { intros r E H. rewrite H in E. discriminate. }
  probe_paths; simpl; intros [H | H]; try (now contradiction H);
    (split; [eauto 8 | split; lia]).
Qed.

Lemma probe_writes_only_when_bound_witness :
  let w := Samples.Scanner.world (fun _ _ => Samples.Scanner.answered) in
  let opts := Samples.Scanner.opts "public" "a.b" in
  written (snd (snmpScan w opts Samples.tenOne 161 "public" Samples.Scanner.answered))
  <> []
  /\ exists realm nonce response,
       setup Samples.Scanner.answered = Ok (realm, nonce) /\
       channelBindRequestErr Samples.Scanner.answered = None /\
       channelBindResponse Samples.Scanner.answered = Ok response /\
       Class response <> MsgTypeClassError.
Proof.
  cbv zeta.
  assert (H : written (snd (snmpScan
                (Samples.Scanner.world (fun _ _ => Samples.Scanner.answered))
                (Samples.Scanner.opts "public" "a.b")
                Samples.tenOne 161 "public" Samples.Scanner.answered)) <> [])
    by (vm_compute; discriminate).
  split; [exact H|].
  exact (proj1 (probe_writes_only_when_bound _ _ _ _ _ _ (or_introl H))).
Defined.

(** ** Errors that are not dropped *)

(** X10: only the timeouts of connection setup and of the read are
    dropped.  When the ChannelBind exchange or the write fails, with a
    timeout or otherwise, the probe returns an error that wraps the
    cause, so that [errors.Is(err, ErrTimeout)] holds of it exactly when
    it holds of the cause; nothing is read, and after a failed
    ChannelBind exchange nothing is written. *)
Theorem probe_reports_bind_and_write_errors w opts ip port name io realm nonce cause :
  setup io = Ok (realm, nonce) ->
  channelBindRequestErr io = None ->
  (channelBindResponse io = Err cause \/
   (exists response,
       channelBindResponse io = Ok response /\
       Class response <> MsgTypeClassError) /\
   connectionWrite io = Some cause) ->
  forall r,
    r = snmpScan w opts ip port name io \/ r = dnsScan w opts ip port name io ->
    (exists format, fst r = Some (ErrorfW format [] cause))
    /\ (forall e, fst r = Some e -> errors_Is_ErrTimeout e = errors_Is_ErrTimeout cause)
    /\ existsb (fun e => match e with ConnectionRead => true | _ => false end) (snd r)
       = false
    /\ (channelBindResponse io = Err cause -> written (snd r) = []).
Proof.
  intros Hsetup Hreq Hfail r Hr.
  assert (Hclass : forall x, Class x <> MsgTypeClassError ->
                             MessageClass_eqb (Class x) MsgTypeClassError = false).
  { intros x Hx. destruct (Class x); try reflexivity. now contradiction Hx. }
  destruct Hfail as [Hbind | [(response & Hbind & Hc) Hwrite]];
    destruct Hr as [-> | ->];
    unfold snmpScan, dnsScan; unfold_flow;
    rewrite Hsetup, Hreq, Hbind; simpl;
    try (rewrite (Hclass _ Hc), Hwrite; simpl);
    (split; [eexists; reflexivity|]);
    (split; [intros e [= <-]; reflexivity|]);
    (split; [reflexivity|]);
    intros H; try reflexivity; discriminate.
Qed.

(** A ChannelBind exchange that times out. *)
Lemma probe_reports_bind_and_write_errors_witness :
  let io := Samples.Scanner.bindTimesOut in
  let w := Samples.Scanner.world (fun _ _ => io) in
  let opts := Samples.Scanner.opts "public" "a.b" in
  setup io = Ok ("r", "n1")
  /\ channelBindRequestErr io = None
  /\ channelBindResponse io = Err ErrTimeout
  /\ exists format,
       fst (snmpScan w opts Samples.tenOne 161 "public" io)
       = Some (ErrorfW format [] ErrTimeout).
Proof.
  cbv zeta. split; [reflexivity|]. split; [reflexivity|]. split; [reflexivity|].
  exact (proj1 (probe_reports_bind_and_write_errors
                  (Samples.Scanner.world (fun _ _ => Samples.Scanner.bindTimesOut))
                  (Samples.Scanner.opts "public" "a.b") Samples.tenOne 161 "public"
                  Samples.Scanner.bindTimesOut
                  (realm := "r") (nonce := "n1") (cause := ErrTimeout)
                  eq_refl eq_refl (or_introl eq_refl)
                  (r := snmpScan
                          (Samples.Scanner.world (fun _ _ => Samples.Scanner.bindTimesOut))
                          (Samples.Scanner.opts "public" "a.b") Samples.tenOne 161
                          "public" Samples.Scanner.bindTimesOut)
                  (or_introl eq_refl))).
Defined.

(** ** What is reported *)

Lemma snmpScan_answered w opts ip port name io :
  existsb isInfoLog (snd (snmpScan w opts ip port name io)) = answeredBy w io
  /\ (answeredBy w io = true -> fst (snmpScan w opts ip port name io) = None).
Proof.
  split.
  - probe_paths; path_hyps; repeat split_innermost; reflexivity.
  - probe_paths; path_hyps; try reflexivity; discriminate.
Qed.

Lemma dnsScan_answered w opts ip port name io :
  existsb isInfoLog (snd (dnsScan w opts ip port name io)) = answeredBy w io
  /\ (answeredBy w io = true -> fst (dnsScan w opts ip port name io) = None).
Proof.
  split.
  - probe_paths; path_hyps; repeat split_innermost; reflexivity.
  - probe_paths; path_hyps; try reflexivity; discriminate.
Qed.

(** X11: a probe logs at Info level exactly when it has read a response
    in which a ChannelData frame is found, and it then returns nil; a
    response is never reported for a probe that failed or timed out. *)
Theorem probe_reports_exactly_the_answers w opts ip port name io :
  existsb isInfoLog (snd (snmpScan w opts ip port name io)) = answeredBy w io
  /\ existsb isInfoLog (snd (dnsScan w opts ip port name io)) = answeredBy w io
  /\ (answeredBy w io = true ->
      fst (snmpScan w opts ip port name io) = None /\
      fst (dnsScan w opts ip port name io) = None)
  /\ (answeredBy w io = true -> timesOut io = false).
Proof.
  destruct (snmpScan_answered w opts ip port name io) as [Hs Hs'].
  destruct (dnsScan_answered w opts ip port name io) as [Hd Hd'].
  repeat split; auto.
  unfold answeredBy, timesOut, reachesRead.
  destruct (setup io); [|discriminate].
  destruct (connectionRead io); [|now rewrite andb_false_r].
  intros _. now rewrite andb_false_r.
Qed.

(** ** Error lines of a round *)

Lemma snmpScan_error_lines w opts ip port name io :
  filter isErrorLog (snd (snmpScan w opts ip port name io)) = [].
Proof. probe_paths; reflexivity. Qed.

Lemma dnsScan_error_lines w opts ip port name io :
  filter isErrorLog (snd (dnsScan w opts ip port name io)) = [].
Proof. probe_paths; reflexivity. Qed.

Lemma logProbeError_count format ip err :
  List.length (filter isErrorLog (logProbeError format ip err))
  = count (match err with Some _ => true | None => false end).
Proof. destruct err; reflexivity. Qed.

Lemma snmpScan_nil_iff w opts ip port name io :
  match fst (snmpScan w opts ip port name io) with Some _ => true | None => false end
  = negb (timesOut io || answeredBy w io).
Proof.
  destruct (timesOut io) eqn:Hto.
  - now rewrite snmpScan_timesOut.
  - destruct (answeredBy w io) eqn:Hans.
    + now rewrite (proj2 (snmpScan_answered w opts ip port name io) Hans).
    + destruct (snmpScan_fails w opts ip port name io Hto Hans) as [e ->].
      reflexivity.
Qed.

Lemma dnsScan_nil_iff w opts ip port name io :
  match fst (dnsScan w opts ip port name io) with Some _ => true | None => false end
  = negb (timesOut io || answeredBy w io).
Proof.
  destruct (timesOut io) eqn:Hto.
  - now rewrite dnsScan_timesOut.
  - destruct (answeredBy w io) eqn:Hans.
    + now rewrite (proj2 (dnsScan_answered w opts ip port name io) Hans).
    + destruct (dnsScan_fails w opts ip port name io Hto Hans) as [e ->].
      reflexivity.
Qed.

(** X12: a round of the scan writes one Error line for an element the
    iterator could not produce; for an address it writes one Error
    line for each of the two probes that neither timed out in setup or
    read nor was answered, and no other Error line. *)
Theorem round_logs_each_failure_once w opts i ip :
  List.length (filter isErrorLog (scanIP w opts i ip))
  = match Error ip with
    | Some _ => 1%nat
    | None =>
        (count (negb (timesOut (probe w i 161) || answeredBy w (probe w i 161)))
         + count (negb (timesOut (probe w i 53) || answeredBy w (probe w i 53))))%nat
    end.
Proof.
  unfold scanIP. destruct (Error ip); [reflexivity|]. cbv zeta.
  rewrite !filter_app, snmpScan_error_lines, dnsScan_error_lines.
  cbn [filter isErrorLog app]. rewrite length_app, !logProbeError_count.
  now rewrite snmpScan_nil_iff, dnsScan_nil_iff.
Qed.

(** ** Connections in the trace of a scan *)

Lemma usesOpenConnection_mono (t : list Event) :
  usesOpenConnection false t = true -> usesOpenConnection true t = true.
Proof.
  induction t as [|e t IH]; [reflexivity|].
  destruct e; simpl; auto; intros H; discriminate H.
Qed.

Lemma snmpScan_connection w opts ip port name io (b : bool) (rest : list Event) :
  usesOpenConnection false rest = true ->
  usesOpenConnection b (snd (snmpScan w opts ip port name io) ++ rest) = true.
Proof.
  intros H. pose proof (usesOpenConnection_mono rest H).
  probe_paths; assumption.
Qed.

Lemma dnsScan_connection w opts ip port name io (b : bool) (rest : list Event) :
  usesOpenConnection false rest = true ->
  usesOpenConnection b (snd (dnsScan w opts ip port name io) ++ rest) = true.
Proof.
  intros H. pose proof (usesOpenConnection_mono rest H).
  probe_paths; assumption.
Qed.

Lemma logProbeError_connection format ip err (b : bool) (rest : list Event) :
  usesOpenConnection b (logProbeError format ip err ++ rest)
  = usesOpenConnection b rest.
Proof. destruct err; reflexivity. Qed.

Lemma scanFrom_connection w opts items : forall i,
  usesOpenConnection false (scanFrom w opts i items) = true.
Proof.
  induction items as [|ip rest IH]; intros i; [reflexivity|].
  simpl scanFrom. unfold scanIP. destruct (Error ip).
  - simpl. apply IH.
  - cbv zeta. rewrite <- !app_assoc. simpl.
    apply snmpScan_connection. rewrite logProbeError_connection.
    apply dnsScan_connection. rewrite logProbeError_connection.
    apply IH.
Qed.

(** X13: in the trace of a scan, every call on a connection and every
    [Close] comes after a connection was set up and not yet closed: the
    scanner never writes to, reads from or closes a connection that it
    has closed or has not set up. *)
Theorem scan_uses_open_connections w opts :
  usesOpenConnection false (snd (UDPScanner w opts)) = true.
Proof.
  unfold UDPScanner. destruct (Validate opts); [reflexivity|].
  simpl. apply scanFrom_connection.
Qed.

End CmdExtra.


(** * Further properties of the SOCKS handler *)

Module SocksExtra.
Import Socksimplementations.

Ltac prehandler_paths :=
  unfold PreHandler, PreHandler_target, refuse; unfold_flow; simpl;
  repeat split_innermost.

Lemma PreHandler_outcome w s request :
  match fst (PreHandler w s request) with
  | (Refused _, s') => s' = s
  | (DataConnection d, s') =>
      exists target c,
        fst (PreHandler_target w s request) = inl target /\
        setupTurnTCPConnection w target (DestinationPort request) = Ok (c, d) /\
        s' = set_ControlConnection s c
  end.
Proof.
  prehandler_paths; try reflexivity; eauto.
Qed.

(** X14: [PreHandler] changes the handler only when it succeeds: a
    refused request leaves the handler as it was, and an accepted one
    stores the control connection that connection setup returned and
    hands out the data connection of the same setup; the other fields
    of the handler stay as they were. *)
Theorem PreHandler_stores_control_connection w s request :
  match fst (PreHandler w s request) with
  | (Refused _, s') => s' = s
  | (DataConnection d, s') =>
      exists target c,
        fst (PreHandler_target w s request) = inl target /\
        setupTurnTCPConnection w target (DestinationPort request) = Ok (c, d) /\
        ControlConnection s' = Some c /\
        s' = set_ControlConnection s c /\
        DropNonPrivateRequests s' = DropNonPrivateRequests s /\
        Server s' = Server s /\
        TURNUsername s' = TURNUsername s /\
        TURNPassword s' = TURNPassword s
  end.
Proof.
  pose proof (PreHandler_outcome w s request) as H.
  destruct (fst (PreHandler w s request)) as [[d|e] s']; [|exact H].
  destruct H as (target & c & Ht & Hsetup & ->).
  exists target, c. repeat split; assumption.
Qed.

(** X15: a refusal carries [AddressTypeNotSupported] exactly when the
    address type is not one of IPv4, IPv6 and domain name, or when an
    address of type IPv4 or IPv6 has neither 4 nor 16 bytes; every
    other refusal (name resolution, the private-address filter, TURN
    connection setup) carries [HostUnreachable]. *)
Theorem PreHandler_refusal_reason w s request e s' :
  fst (PreHandler w s request) = (Refused e, s') ->
  Reason e
  = match AddressType request with
    | RequestAddressTypeUnknown _ => RequestReplyAddressTypeNotSupported
    | RequestAddressTypeDomainname => RequestReplyHostUnreachable
    | RequestAddressTypeIPv4 | RequestAddressTypeIPv6 =>
        match AddrFromSlice (DestinationAddress request) with
        | None => RequestReplyAddressTypeNotSupported
        | Some _ => RequestReplyHostUnreachable
        end
    end.
Proof.
  prehandler_paths; intros [= <- <-]; reflexivity.
Qed.

(** An IPv4 request whose address has three bytes. *)
Lemma PreHandler_refusal_reason_witness :
  let w := Samples.Socks.world (fun _ => Ok Samples.success) in
  let s := Samples.Socks.handler false in
  let request :=
    {| AddressType := RequestAddressTypeIPv4;
       DestinationAddress := [10; 0; 0];
       DestinationPort := 80 |} in
  let e := {| Reason := RequestReplyAddressTypeNotSupported;
              Err_ := Errorf "%02x is no ip address" [ABytes [10; 0; 0]] |} in
  fst (PreHandler w s request) = (Refused e, s)
  /\ Reason e = RequestReplyAddressTypeNotSupported.
Proof.
  cbv zeta. split; [reflexivity|].
  exact (PreHandler_refusal_reason
           (Samples.Socks.world (fun _ => Ok Samples.success))
           (Samples.Socks.handler false)
           {| AddressType := RequestAddressTypeIPv4;
              DestinationAddress := [10; 0; 0];
              DestinationPort := 80 |}
           eq_refl).
Defined.

(** X16: a request whose target is resolved is passed on whenever the
    private-address filter is off or the target is private: the TURN
    connection is set up once, for that target and the requested port
    on the configured server, and the outcome of the setup decides the
    result. *)
Theorem PreHandler_sets_up_unless_dropped w s request target :
  fst (PreHandler_target w s request) = inl target ->
  DropNonPrivateRequests s = false \/ IsPrivateIP w target = true ->
  snd (PreHandler w s request)
  = [SetupTurnTCPConnection (Server s) target (DestinationPort request)]
  /\ fst (PreHandler w s request)
     = match setupTurnTCPConnection w target (DestinationPort request) with
       | Ok (c, d) => (DataConnection d, set_ControlConnection s c)
       | Err err =>
           (Refused {| Reason := RequestReplyHostUnreachable; Err_ := err |}, s)
       end.
Proof.
  intros Htarget Hpass.
  pose proof (SocksFacts.PreHandler_target_trace w s request) as Htrace.
  unfold PreHandler.
  destruct (PreHandler_target w s request) as [r t]. simpl in Htarget, Htrace.
  subst r t. unfold refuse; unfold_flow.
  assert (Hgate : DropNonPrivateRequests s && negb (IsPrivateIP w target) = false).
  { destruct Hpass as [-> | ->]; [reflexivity | apply andb_false_r]. }
  rewrite Hgate. simpl.
  destruct (setupTurnTCPConnection w target (DestinationPort request)) as [[c d]|err];
    split; reflexivity.
Qed.

(** The filter is on and the target is 10.0.0.1. *)
Lemma PreHandler_sets_up_unless_dropped_witness :
  let w := Samples.Socks.world (fun _ => Ok Samples.success) in
  let s := Samples.Socks.handler true in
  let request :=
    {| AddressType := RequestAddressTypeIPv4;
       DestinationAddress := [10; 0; 0; 1];
       DestinationPort := 22 |} in
  fst (PreHandler_target w s request) = inl Samples.tenOne
  /\ IsPrivateIP w Samples.tenOne = true
  /\ snd (PreHandler w s request)
     = [SetupTurnTCPConnection "turn.example.org:3478" Samples.tenOne 22].
Proof.
  cbv zeta. split; [reflexivity|]. split; [reflexivity|].
  exact (proj1 (PreHandler_sets_up_unless_dropped
                  (Samples.Socks.world (fun _ => Ok Samples.success))
                  (Samples.Socks.handler true)
                  {| AddressType := RequestAddressTypeIPv4;
                     DestinationAddress := [10; 0; 0; 1];
                     DestinationPort := 22 |}
                  (target := Samples.tenOne) eq_refl (or_intror eq_refl))).
Defined.

(** X17: [Cleanup] after [PreHandler].  After an accepted request it
    closes exactly the control connection of that request's setup, and
    returns what closing it returns: not the data connection, and not a
    control connection the handler held before.  After a refused request
    it does what it would have done before the request. *)
Theorem Cleanup_after_PreHandler w close s request :
  match fst (PreHandler w s request) with
  | (Refused _, s') => Cleanup close s' = Cleanup close s
  | (DataConnection d, s') =>
      exists target c,
        setupTurnTCPConnection w target (DestinationPort request) = Ok (c, d) /\
        Cleanup close s' = (close c, [c])
  end.
Proof.
  pose proof (PreHandler_outcome w s request) as H.
  destruct (fst (PreHandler w s request)) as [[d|e] s'].
  - destruct H as (target & c & _ & Hsetup & ->). exists target, c.
    split; [exact Hsetup | reflexivity].
  - now subst s'.
Qed.

(** X18: [Refresh] logs an Error line exactly when the refresh did not
    go through (the first exchange failed, or its response was of class
    error and the second exchange failed or was answered with class
    error again), and then only one; it never sets up or closes a
    connection, and when the context is done first it does nothing. *)
Theorem Refresh_logs_failure_once w s rest :
  let t := trace (Refresh w s (TickC :: rest)) in
  existsb isErrorLog t
  = match sendAndReceive w 0 with
    | Err _ => true
    | Ok first =>
        MessageClass_eqb (Class first) MsgTypeClassError &&
        match sendAndReceive w 1 with
        | Err _ => true
        | Ok second => MessageClass_eqb (Class second) MsgTypeClassError
        end
    end
  /\ (List.length (filter isErrorLog t) <= 1)%nat
  /\ existsb isSetup t = false
  /\ existsb isClose t = false
  /\ trace (Refresh w s (CtxDone :: rest)) = [].
Proof.
  cbv zeta. unfold Refresh; unfold_flow; simpl.
  repeat split_innermost; repeat split; simpl; auto; lia.
Qed.

End SocksExtra.
